(** * Collection-consistency protocol of the knowledge router and the S3
      storage provider

    Shallow embedding of
    - [backend/open_webui/apps/webui/routers/knowledge.py]
      (add / remove a file of a knowledge collection, delete a collection);
    - [backend/open_webui/storage/s3_storage_provider.py]
      (upload, retrieval, deletion of blobs and the locator format).

    The router functions are sequences of calls to collaborators that own
    state (the knowledge table, the file table, the vector database), so
    they are written in a state-and-exception monad over a [World] that
    holds the three stores and the log of the calls made to them. *)

From Stdlib Require Import String Ascii List ZArith Lia.
From stdpp Require Import base option list gmap strings fin_maps.

Local Open Scope string_scope.
Local Open Scope list_scope.
Local Open Scope stdpp_scope.
Local Open Scope Z_scope.

(** ** Python values common to both files *)

(** [open_webui.constants.ERROR_MESSAGES]: the members the two files use.
    The text of the messages is declared outside the two files, so a member
    is kept by name; [DEFAULT] is the member that takes an argument. *)
Inductive ERROR_MESSAGES : Type :=
| NOT_FOUND
| FILE_NOT_PROCESSED
| EMPTY_CONTENT
| DEFAULT (err : string).

(** A Python exception that is not an [HTTPException]: its class and the
    text [str(e)] gives. *)
Record PyExc : Type := mkExc { exc_class : string; exc_msg : string }.

Definition str (e : PyExc) : string := exc_msg e.

(** The outcome of a call: a returned value or a raised exception. *)
Inductive Result (E A : Type) : Type :=
| Return (a : A)
| Raise (e : E).
Arguments Return {E A} a.
Arguments Raise {E A} e.

(** ** State and exception monad

    A computation takes the state of the stores, and gives the outcome and
    the state it leaves. An exception keeps the state reached when it was
    raised: nothing is rolled back. *)

Definition M (S E A : Type) : Type := S -> Result E A * S.

Definition ret {S E A} (a : A) : M S E A := fun s => (Return a, s).

Definition raise {S E A} (e : E) : M S E A := fun s => (Raise e, s).

Definition bind {S E A B} (m : M S E A) (f : A -> M S E B) : M S E B :=
  fun s =>
    match m s with
    | (Return a, s') => f a s'
    | (Raise e, s') => (Raise e, s')
    end.

(** [try: m except Exception as e: h e] *)
Definition try_except {S E E' A} (m : M S E A) (h : E -> M S E' A) : M S E' A :=
  fun s =>
    match m s with
    | (Return a, s') => (Return a, s')
    | (Raise e, s') => h e s'
    end.

Definition get {S E} : M S E S := fun s => (Return s, s).

Definition put {S E} (s : S) : M S E unit := fun _ => (Return tt, s).

Declare Scope py_scope.
Delimit Scope py_scope with py.
Notation "x <- m ;; k" := (bind m (fun x => k))
  (at level 100, m at next level, right associativity) : py_scope.
Notation "m ;; k" := (bind m (fun _ => k))
  (at level 100, right associativity) : py_scope.
Local Open Scope py_scope.

(** ** The knowledge router *)

Module Knowledge.

(** [detail=] of an [HTTPException]: an [ERROR_MESSAGES] member or the
    text of a caught exception ([detail=str(e)]). *)
Inductive Detail : Type :=
| Msg (m : ERROR_MESSAGES)
| Text (s : string).

(** What a route can raise: an [HTTPException] of its own, or an
    exception nothing catches. *)
Inductive Failure : Type :=
| HTTPException (status_code : Z) (detail : Detail)
| Unhandled (e : PyExc).

Definition HTTP_400_BAD_REQUEST : Z := 400.

(** *** Records *)

(** Modelled from the spec: [FileModel] of [webui.models.files] (section 3,
    FileRecord): identifier, storage locator, and [data], the extracted
    content, which is [None] or an empty dict until the file has been
    processed. *)
Record FileModel : Type := mkFile {
  f_id : string;
  f_path : string;
  f_data : option (gmap string string)
}.

(** Modelled from the spec: [KnowledgeModel] of [webui.models.knowledge]
    (section 3, KnowledgeCollection). [data] is the dict the router reads
    and writes under the key ["file_ids"]; its values are lists of file
    identifiers. *)
Record KnowledgeModel : Type := mkKnowledge {
  k_id : string;
  k_user_id : string;
  k_name : string;
  k_description : string;
  k_data : option (gmap string (list string))
}.

(** [KnowledgeUpdateForm]: a partial patch, every field optional. *)
Record KnowledgeUpdateForm : Type := mkUpdateForm {
  form_name : option string;
  form_description : option string;
  form_data : option (gmap string (list string))
}.

(** [class KnowledgeFileIdForm(BaseModel): file_id: str] *)
Record KnowledgeFileIdForm : Type := mkFileIdForm { file_id : string }.

(** [ProcessFileForm(file_id=..., collection_name=...)] *)
Record ProcessFileForm : Type := mkProcessForm {
  pf_file_id : string;
  pf_collection_name : string
}.

(** [class KnowledgeFilesResponse(KnowledgeResponse): files: list[FileModel]] *)
Record KnowledgeFilesResponse : Type := mkResponse {
  r_knowledge : KnowledgeModel;
  r_files : list FileModel
}.

(** An entry of the vector database, keyed as the spec has it by
    collection, file and passage. *)
Record VectorEntry : Type := mkEntry {
  ve_collection : string;
  ve_file_id : string;
  ve_passage : string
}.

(** The calls the router makes to its collaborators, in the order made. *)
Inductive Call : Type :=
| Knowledges_get_knowledge_by_id (id : string)
| Knowledges_update_knowledge_by_id (id : string) (form : KnowledgeUpdateForm)
| Knowledges_delete_knowledge_by_id (id : string)
| Files_get_file_by_id (id : string)
| Files_get_files_by_ids (ids : list string)
| Files_delete_file_by_id (id : string)
| call_process_file (form : ProcessFileForm)
| VECTOR_DB_CLIENT_delete (collection_name : string) (filter_file_id : string)
| VECTOR_DB_CLIENT_delete_collection (collection_name : string).

(** *** The state the collaborators own *)

Record World : Type := mkWorld {
  knowledges : gmap string KnowledgeModel;   (* Knowledge Record Store *)
  files : gmap string FileModel;             (* File Record Store *)
  blobs : gset string;                       (* locators that hold a blob *)
  vectors : list VectorEntry;                (* Vector Index *)
  calls : list Call                          (* log, oldest first *)
}.

(** What the router cannot decide: whether the indexing pipeline raises
    for a file and a collection, and the passages the extraction pipeline
    yields for a file (at least one). *)
Record Env : Type := mkEnv {
  process_file_error : string -> string -> option PyExc;
  passages : string -> string * list string
}.

(** *** Calls are logged *)

Definition log {E} (c : Call) : M World E unit :=
  fun w => (Return tt,
            {| knowledges := knowledges w; files := files w; blobs := blobs w;
               vectors := vectors w; calls := calls w ++ [c] |}).

(** *** Python helpers *)

(** Truth value of an optional dict: [None] and [{}] are false. *)
Definition truthy {V} (d : option (gmap string V)) : bool :=
  match d with
  | None => false
  | Some m => negb (bool_decide (m = ∅))
  end.

(** [d or {}] *)
Definition or_empty {V} (d : option (gmap string V)) : gmap string V :=
  if truthy d then default ∅ d else ∅.

(** [d.get(key, [])] *)
Definition dict_get (d : gmap string (list string)) (key : string) : list string :=
  default [] (d !! key).

(** [l.remove(x)] for an [x] that is in [l]: the first occurrence goes. *)
Fixpoint list_remove (x : string) (l : list string) : list string :=
  match l with
  | [] => []
  | y :: l' => if bool_decide (x = y) then l' else y :: list_remove x l'
  end.

(** [knowledge.id], which raises [AttributeError] on [None]. *)
Definition getattr_id (knowledge : option KnowledgeModel) : M World Failure string :=
  match knowledge with
  | Some k => ret (k_id k)
  | None => raise (Unhandled (mkExc "AttributeError"
                                "'NoneType' object has no attribute 'id'"))
  end.

(** The member list of a stored collection. *)
Definition file_ids_of (k : KnowledgeModel) : list string :=
  dict_get (or_empty (k_data k)) "file_ids".

(** *** Knowledge Record Store *)

Module Knowledges.

(** Modelled from the spec: [Knowledges.get_knowledge_by_id] of
    [webui.models.knowledge] (section 4.1, [get(id) -> Collection | None]).
    The record returned is a copy: changing it changes nothing stored. *)
Definition get_knowledge_by_id {E} (id : string) : M World E (option KnowledgeModel) :=
  log (Knowledges_get_knowledge_by_id id) ;;
  w <- get ;;
  ret (knowledges w !! id).

Definition patch (form : KnowledgeUpdateForm) (k : KnowledgeModel) : KnowledgeModel :=
  {| k_id := k_id k;
     k_user_id := k_user_id k;
     k_name := default (k_name k) (form_name form);
     k_description := default (k_description k) (form_description form);
     k_data := match form_data form with
               | Some d => Some d
               | None => k_data k
               end |}.

(** Modelled from the spec: [Knowledges.update_knowledge_by_id]
    (section 4.1, [update(id, partialForm) -> Collection | None], where
    [None] signals that there is no such collection). *)
Definition update_knowledge_by_id {E} (id : string) (form : KnowledgeUpdateForm)
  : M World E (option KnowledgeModel) :=
  log (Knowledges_update_knowledge_by_id id form) ;;
  w <- get ;;
  match knowledges w !! id with
  | None => ret None
  | Some k =>
      let k' := patch form k in
      put {| knowledges := <[id := k']> (knowledges w); files := files w;
             blobs := blobs w; vectors := vectors w; calls := calls w |} ;;
      ret (Some k')
  end.

(** Modelled from the spec: [Knowledges.delete_knowledge_by_id]
    (section 4.1, [delete(id) -> bool], true iff a record existed and
    was removed). *)
Definition delete_knowledge_by_id {E} (id : string) : M World E bool :=
  log (Knowledges_delete_knowledge_by_id id) ;;
  w <- get ;;
  match knowledges w !! id with
  | None => ret false
  | Some _ =>
      put {| knowledges := delete id (knowledges w); files := files w;
             blobs := blobs w; vectors := vectors w; calls := calls w |} ;;
      ret true
  end.

(** Modelled from the spec: [Knowledges.get_knowledge_items] (section 4.1,
    [listAll() -> sequence<Collection>]): every stored record, once. *)
Definition get_knowledge_items {E} : M World E (list KnowledgeModel) :=
  w <- get ;;
  ret ((map_to_list (knowledges w)).*2).

End Knowledges.

(** *** File Record Store *)

Module Files.

(** Modelled from the spec: [Files.get_file_by_id] of
    [webui.models.files]. *)
Definition get_file_by_id {E} (id : string) : M World E (option FileModel) :=
  log (Files_get_file_by_id id) ;;
  w <- get ;;
  ret (files w !! id).

(** Modelled from the spec: [Files.get_files_by_ids], the records of the
    identifiers that have one (section 4.2, the projection returned on
    success). *)
Definition get_files_by_ids {E} (ids : list string) : M World E (list FileModel) :=
  log (Files_get_files_by_ids ids) ;;
  w <- get ;;
  ret (omap (fun i => files w !! i) ids).

(** Modelled from the spec: [Files.delete_file_by_id], the deletion
    helper of the File Record Store: it deletes the blob at the record's
    locator from the storage provider and the record itself (sections 4.3
    step 3 and 4.5). *)
Definition delete_file_by_id {E} (id : string) : M World E bool :=
  log (Files_delete_file_by_id id) ;;
  w <- get ;;
  match files w !! id with
  | None => ret false
  | Some f =>
      put {| knowledges := knowledges w; files := delete id (files w);
             blobs := blobs w ∖ {[ f_path f ]}; vectors := vectors w;
             calls := calls w |} ;;
      ret true
  end.

End Files.

(** *** Vector Index *)

Module VECTOR_DB_CLIENT.

Definition tagged (collection_name fid : string) (e : VectorEntry) : bool :=
  bool_decide (ve_collection e = collection_name) && bool_decide (ve_file_id e = fid).

(** Modelled from the spec: [VECTOR_DB_CLIENT.delete(collection_name,
    filter={"file_id": ...})] of [retrieval.vector.connector]: deletes the
    entries of the collection tagged with the file; no error if there are
    none (section 4.3 step 2). *)
Definition delete {E} (collection_name fid : string) : M World E unit :=
  log (VECTOR_DB_CLIENT_delete collection_name fid) ;;
  w <- get ;;
  put {| knowledges := knowledges w; files := files w; blobs := blobs w;
         vectors := List.filter (fun e => negb (tagged collection_name fid e)) (vectors w);
         calls := calls w |}.

(** Modelled from the spec: [VECTOR_DB_CLIENT.delete_collection]: drops
    the index of the collection, idempotent if absent (section 4.4). *)
Definition delete_collection {E} (collection_name : string) : M World E unit :=
  log (VECTOR_DB_CLIENT_delete_collection collection_name) ;;
  w <- get ;;
  put {| knowledges := knowledges w; files := files w; blobs := blobs w;
         vectors := List.filter
                      (fun e => negb (bool_decide (ve_collection e = collection_name)))
                      (vectors w);
         calls := calls w |}.

End VECTOR_DB_CLIENT.

(** The entries indexing a file into a collection adds: one per passage. *)
Definition entries_of (env : Env) (form : ProcessFileForm) : list VectorEntry :=
  let '(p, ps) := passages env (pf_file_id form) in
  List.map (mkEntry (pf_collection_name form) (pf_file_id form)) (p :: ps).

(** Modelled from the spec: [process_file] of [retrieval.main] (sections 2
    and 4.2 step 3): indexes the file's content into the collection's
    index, or raises and changes nothing. *)
Definition process_file (env : Env) (form : ProcessFileForm) : M World PyExc unit :=
  log (call_process_file form) ;;
  match process_file_error env (pf_file_id form) (pf_collection_name form) with
  | Some e => raise e
  | None =>
      w <- get ;;
      put {| knowledges := knowledges w; files := files w; blobs := blobs w;
             vectors := vectors w ++ entries_of env form; calls := calls w |}
  end.

(** *** The routes *)

(** [POST /{id}/file/add] *)
Definition add_file_to_knowledge_by_id (env : Env) (id : string)
    (form_data : KnowledgeFileIdForm) : M World Failure KnowledgeFilesResponse :=
  knowledge <- Knowledges.get_knowledge_by_id id ;;
  file <- Files.get_file_by_id (file_id form_data) ;;
  match file with
  | None => raise (HTTPException HTTP_400_BAD_REQUEST (Msg NOT_FOUND))
  | Some file =>
      if negb (truthy (f_data file)) then
        raise (HTTPException HTTP_400_BAD_REQUEST (Msg FILE_NOT_PROCESSED))
      else
        (* Add content to the vector database *)
        try_except
          (process_file env (mkProcessForm (file_id form_data) id))
          (fun e => raise (HTTPException HTTP_400_BAD_REQUEST (Text (str e)))) ;;
        match knowledge with
        | Some knowledge =>
            let data := or_empty (k_data knowledge) in
            let file_ids := dict_get data "file_ids" in
            if negb (bool_decide (file_id form_data ∈ file_ids)) then
              let file_ids := file_ids ++ [file_id form_data] in
              let data := <["file_ids" := file_ids]> data in
              knowledge <- Knowledges.update_knowledge_by_id id
                             (mkUpdateForm None None (Some data)) ;;
              match knowledge with
              | Some knowledge =>
                  files <- Files.get_files_by_ids file_ids ;;
                  ret (mkResponse knowledge files)
              | None =>
                  raise (HTTPException HTTP_400_BAD_REQUEST (Msg (DEFAULT "knowledge")))
              end
            else
              raise (HTTPException HTTP_400_BAD_REQUEST (Msg (DEFAULT "file_id")))
        | None => raise (HTTPException HTTP_400_BAD_REQUEST (Msg NOT_FOUND))
        end
  end.

(** [POST /{id}/file/remove] *)
Definition remove_file_from_knowledge_by_id (id : string)
    (form_data : KnowledgeFileIdForm) : M World Failure KnowledgeFilesResponse :=
  knowledge <- Knowledges.get_knowledge_by_id id ;;
  file <- Files.get_file_by_id (file_id form_data) ;;
  match file with
  | None => raise (HTTPException HTTP_400_BAD_REQUEST (Msg NOT_FOUND))
  | Some file =>
      (* Remove content from the vector database; the argument
         [knowledge.id] is evaluated before the call is made *)
      collection_name <- getattr_id knowledge ;;
      VECTOR_DB_CLIENT.delete collection_name (file_id form_data) ;;
      Files.delete_file_by_id (file_id form_data) ;;
      match knowledge with
      | Some knowledge =>
          let data := or_empty (k_data knowledge) in
          let file_ids := dict_get data "file_ids" in
          if bool_decide (file_id form_data ∈ file_ids) then
            let file_ids := list_remove (file_id form_data) file_ids in
            let data := <["file_ids" := file_ids]> data in
            knowledge <- Knowledges.update_knowledge_by_id id
                           (mkUpdateForm None None (Some data)) ;;
            match knowledge with
            | Some knowledge =>
                files <- Files.get_files_by_ids file_ids ;;
                ret (mkResponse knowledge files)
            | None =>
                raise (HTTPException HTTP_400_BAD_REQUEST (Msg (DEFAULT "knowledge")))
            end
          else
            raise (HTTPException HTTP_400_BAD_REQUEST (Msg (DEFAULT "file_id")))
      | None => raise (HTTPException HTTP_400_BAD_REQUEST (Msg NOT_FOUND))
      end
  end.

(** [DELETE /{id}/delete] *)
Definition delete_knowledge_by_id (id : string) : M World Failure bool :=
  VECTOR_DB_CLIENT.delete_collection id ;;
  result <- Knowledges.delete_knowledge_by_id id ;;
  ret result.

(** *** The routes that read *)

Definition HTTP_401_UNAUTHORIZED : Z := 401.

(** [KnowledgeResponse] built from [knowledge.model_dump()]: the response
    class is declared with the model, outside the file; it is taken to carry
    the fields of the record. *)
Definition KnowledgeResponse (knowledge : KnowledgeModel) : KnowledgeModel := knowledge.

(** Truth value of an optional string: [None] and [""] are false. *)
Definition truthy_str (s : option string) : bool :=
  match s with
  | None => false
  | Some s => negb (bool_decide (s = EmptyString))
  end.

(** [GET /]: one record for an [id], the list of all without. *)
Definition get_knowledge_items (id : option string)
  : M World Failure (KnowledgeModel + list KnowledgeModel) :=
  if truthy_str id then
    knowledge <- Knowledges.get_knowledge_by_id (default EmptyString id) ;;
    match knowledge with
    | Some knowledge => ret (inl knowledge)
    | None => raise (HTTPException HTTP_401_UNAUTHORIZED (Msg NOT_FOUND))
    end
  else
    items <- Knowledges.get_knowledge_items ;;
    ret (inr (List.map KnowledgeResponse items)).

(** [GET /{id}] *)
Definition get_knowledge_by_id (id : string) : M World Failure KnowledgeFilesResponse :=
  knowledge <- Knowledges.get_knowledge_by_id id ;;
  match knowledge with
  | Some knowledge =>
      let file_ids :=
        if truthy (k_data knowledge)
        then dict_get (default ∅ (k_data knowledge)) "file_ids"
        else [] in
      files <- Files.get_files_by_ids file_ids ;;
      ret (mkResponse knowledge files)
  | None => raise (HTTPException HTTP_401_UNAUTHORIZED (Msg NOT_FOUND))
  end.

End Knowledge.

(** ** Python string operations the storage provider uses *)

(** [s[n:]] *)
Fixpoint string_drop (n : nat) (s : string) : string :=
  match n, s with
  | O, _ => s
  | S n', String _ s' => string_drop n' s'
  | S _, EmptyString => EmptyString
  end.

(** [s.partition(sep)] at the first occurrence of [sep], scanning from the
    left: the text before it and the text after it, or [None] when [sep]
    does not occur. *)
Fixpoint partition (sep s : string) : option (string * string) :=
  if String.prefix sep s then Some (EmptyString, string_drop (String.length sep) s)
  else
    match s with
    | EmptyString => None
    | String c s' =>
        match partition sep s' with
        | Some (before, after) => Some (String c before, after)
        | None => None
        end
    end.

(** [s.split(sep, maxsplit)] for a non-empty [sep]: at most [maxsplit]
    splits, from the left. *)
Fixpoint splitn (maxsplit : nat) (sep s : string) : list string :=
  match maxsplit with
  | O => [s]
  | S n =>
      match partition sep s with
      | None => [s]
      | Some (before, after) => before :: splitn n sep after
      end
  end.

(** [s.split(sep)]: no limit on the splits. A string has fewer occurrences
    of a non-empty separator than characters, so its length is no limit. *)
Definition split (sep s : string) : list string :=
  splitn (String.length s) sep s.

(** [sep in s], written without [partition]: [sep] is a prefix of some
    suffix of [s]. *)
Fixpoint occurs (sep s : string) : bool :=
  String.prefix sep s ||
  match s with
  | EmptyString => false
  | String _ s' => occurs sep s'
  end.

(** ** The S3 storage provider *)

Module S3.

(** [bytes] *)
Definition bytes : Type := list Byte.byte.

(** What the provider raises: [ValueError(ERROR_MESSAGES.EMPTY_CONTENT)]
    and [RuntimeError(f"...")]. *)
Inductive Failure : Type :=
| ValueError (m : ERROR_MESSAGES)
| RuntimeError (msg : string).

(** [self.bucket_name], [self.bucket_prefix] and [S3_LOCAL_CACHE_DIR], as
    configured. *)
Record S3StorageProvider : Type := mkProvider {
  bucket_name : string;
  bucket_prefix : string;
  S3_LOCAL_CACHE_DIR : string
}.

(** The requests the provider sends through its client. *)
Inductive Request : Type :=
| PutObject (Bucket Key : string) (Body : bytes)
| GetObject (Bucket Key : string)
| DownloadFile (Bucket Key Filename : string)
| DeleteObject (Bucket Key : string)
| ListObjectsV2 (Bucket Prefix : string).

(** The object store behind the client, the local disk, and the requests
    sent, oldest first. *)
Record Store : Type := mkStore {
  objects : gmap (string * string) bytes;    (* (bucket, key) to body *)
  local_files : gmap string bytes;           (* path to content *)
  requests : list Request
}.

(** The backend's faults: the exception, if any, the client raises for a
    request (network, credentials, a bucket that is not there). *)
Definition Backend : Type := Request -> option PyExc.

Definition NoSuchKey : PyExc :=
  mkExc "NoSuchKey"
    "An error occurred (NoSuchKey) when calling the GetObject operation: The specified key does not exist.".

Definition send (be : Backend) (r : Request) : M Store PyExc unit :=
  fun s =>
    let s' := {| objects := objects s; local_files := local_files s;
                 requests := requests s ++ [r] |} in
    match be r with
    | Some e => (Raise e, s')
    | None => (Return tt, s')
    end.

(** [client.put_object(Bucket=..., Key=..., Body=...)] *)
Definition put_object (be : Backend) (Bucket Key : string) (Body : bytes)
  : M Store PyExc unit :=
  send be (PutObject Bucket Key Body) ;;
  s <- get ;;
  put {| objects := <[(Bucket, Key) := Body]> (objects s);
         local_files := local_files s; requests := requests s |}.

(** [client.get_object(Bucket=..., Key=...)], read to the end of its body. *)
Definition get_object (be : Backend) (Bucket Key : string)
  : M Store PyExc bytes :=
  send be (GetObject Bucket Key) ;;
  s <- get ;;
  match objects s !! (Bucket, Key) with
  | Some body => ret body
  | None => raise NoSuchKey
  end.

(** [client.download_file(bucket, key, path)] *)
Definition download_file (be : Backend) (Bucket Key Filename : string)
  : M Store PyExc unit :=
  send be (DownloadFile Bucket Key Filename) ;;
  s <- get ;;
  match objects s !! (Bucket, Key) with
  | Some body =>
      put {| objects := objects s;
             local_files := <[Filename := body]> (local_files s);
             requests := requests s |}
  | None => raise NoSuchKey
  end.

(** [client.delete_object(Bucket=..., Key=...)]: no error if the key is
    not there. *)
Definition delete_object (be : Backend) (Bucket Key : string)
  : M Store PyExc unit :=
  send be (DeleteObject Bucket Key) ;;
  s <- get ;;
  put {| objects := delete (Bucket, Key) (objects s);
         local_files := local_files s; requests := requests s |}.

(** [f"{self.bucket_prefix}/{filename}"], the key [upload_file] writes. *)
Definition object_key (self : S3StorageProvider) (filename : string) : string :=
  bucket_prefix self +:+ "/" +:+ filename.

(** [f"s3://{self.bucket_name}/{self.bucket_prefix}/{filename}"], the
    locator [upload_file] returns. *)
Definition locator (self : S3StorageProvider) (filename : string) : string :=
  "s3://" +:+ bucket_name self +:+ "/" +:+ bucket_prefix self +:+ "/" +:+ filename.

(** [bucket_name, key = file_path.split("//")[1].split("/", 1)] *)
Definition parse_locator {S} (file_path : string) : M S PyExc (string * string) :=
  match split "//" file_path !! 1%nat with
  | None => raise (mkExc "IndexError" "list index out of range")
  | Some rest =>
      match splitn 1 "/" rest with
      | [bucket; key] => ret (bucket, key)
      | _ => raise (mkExc "ValueError"
                      "not enough values to unpack (expected 2, got 1)")
      end
  end.

(** [async def upload_file(self, file, filename)]; [file] stands for what
    [file.read()] returns. *)
Definition upload_file (self : S3StorageProvider) (be : Backend)
    (file : bytes) (filename : string) : M Store Failure (bytes * string) :=
  let contents := file in
  if bool_decide (contents = []) then raise (ValueError EMPTY_CONTENT)
  else
    try_except
      (put_object be (bucket_name self) (object_key self filename) contents ;;
       ret (contents, locator self filename))
      (fun e => raise (RuntimeError ("Error uploading file to S3: " +:+ str e))).

(** [async def get_file(self, file_path)]: the bytes of the chunks it
    yields, in order. *)
Definition get_file (self : S3StorageProvider) (be : Backend)
    (file_path : string) : M Store Failure bytes :=
  try_except
    (parsed <- parse_locator file_path ;;
     let '(bucket, key) := parsed in
     get_object be bucket key)
    (fun e => raise (RuntimeError
                       ("Error downloading file " +:+ file_path +:+ " from S3: " +:+ str e))).

(** [os.path.dirname(p)]: the text up to the last slash, without the
    slashes it ends with unless it is made of slashes only. *)
Fixpoint up_to_last_slash (p : string) : string :=
  match p with
  | EmptyString => EmptyString
  | String c p' =>
      match up_to_last_slash p' with
      | EmptyString => if ascii_dec c "/" then String c EmptyString else EmptyString
      | head => String c head
      end
  end.

Fixpoint rstrip_slash (p : string) : string :=
  match p with
  | EmptyString => EmptyString
  | String c p' =>
      match rstrip_slash p' with
      | EmptyString => if ascii_dec c "/" then EmptyString else String c EmptyString
      | rest => String c rest
      end
  end.

Definition dirname (p : string) : string :=
  let head := up_to_last_slash p in
  match rstrip_slash head with
  | EmptyString => head
  | stripped => stripped
  end.

(** The paths of the components of a path, outermost first: for
    ["/tmp/cache/uploads"] they are ["/tmp"], ["/tmp/cache"] and
    ["/tmp/cache/uploads"]. Paths are compared as written. *)
Fixpoint prefixes_at_slash (before rest : string) : list string :=
  match rest with
  | EmptyString => [before]
  | String c rest' =>
      (if ascii_dec c "/" then [before] else [])
      ++ prefixes_at_slash (before +:+ String c EmptyString) rest'
  end.

Definition path_components (name : string) : list string :=
  List.filter (fun q => negb (bool_decide (q = EmptyString)))
    (prefixes_at_slash EmptyString name).

(** The operating system under the local cache: the [OSError] it raises
    when a component of the directory to make is a regular file
    ([FileExistsError] or [NotADirectoryError], with the system's text),
    and the [OSError], if any, with which it refuses to make a directory
    for another reason (permissions, a disk that is read-only or full). *)
Record LocalOS : Type := mkOS {
  blocked_by_file : string -> PyExc;
  refuses : string -> option PyExc
}.

(** A component of the path is a regular file of the local disk. *)
Definition makedirs_blocked (s : Store) (name : string) : bool :=
  existsb (fun q => bool_decide (is_Some (local_files s !! q))) (path_components name).

(** [os.makedirs(name, exist_ok=True)]: raises when a component of [name]
    is a regular file or the system refuses; otherwise the directories are
    there afterwards. The store keeps the regular files of the disk only, so
    a directory made leaves it as it is. *)
Definition makedirs (os : LocalOS) (name : string) : M Store PyExc unit :=
  fun s =>
    if makedirs_blocked s name then (Raise (blocked_by_file os name), s)
    else
      match refuses os name with
      | Some e => (Raise e, s)
      | None => (Return tt, s)
      end.

(** [async def as_local_file(self, file_path)]: the path of the local copy. *)
Definition as_local_file (self : S3StorageProvider) (be : Backend) (os : LocalOS)
    (file_path : string) : M Store Failure string :=
  try_except
    (parsed <- parse_locator file_path ;;
     let '(bucket, key) := parsed in
     let local_file_path := S3_LOCAL_CACHE_DIR self +:+ "/" +:+ key in
     makedirs os (dirname local_file_path) ;;
     download_file be bucket key local_file_path ;;
     ret local_file_path)
    (fun e => raise (RuntimeError
                       ("Error downloading file " +:+ file_path +:+ " from S3: " +:+ str e))).

(** [async def delete_file(self, filename)] *)
Definition delete_file (self : S3StorageProvider) (be : Backend)
    (filename : string) : M Store Failure unit :=
  try_except
    (delete_object be (bucket_name self) filename)
    (fun e => raise (RuntimeError
                       ("Error deleting file " +:+ filename +:+ " from S3: " +:+ str e))).

(** The keys of a bucket that start with a prefix. *)
Definition keys_with_prefix (s : Store) (Bucket Prefix : string) : list string :=
  omap (fun '((b, k), _) =>
          if bool_decide (b = Bucket) && String.prefix Prefix k then Some k else None)
       (map_to_list (objects s)).

(** [client.list_objects_v2(Bucket=..., Prefix=...)]: the value of
    ["Contents"] in the response, the keys of the bucket that start with the
    prefix, at most [MaxKeys] of them (the page the backend answers with);
    the response has no ["Contents"] when there is none. *)
Definition list_objects_v2 (be : Backend) (MaxKeys : nat) (Bucket Prefix : string)
  : M Store PyExc (option (list string)) :=
  send be (ListObjectsV2 Bucket Prefix) ;;
  s <- get ;;
  match take MaxKeys (keys_with_prefix s Bucket Prefix) with
  | [] => ret None
  | keys => ret (Some keys)
  end.

(** [for x in l: f(x)] *)
Fixpoint for_each {S E A} (f : A -> M S E unit) (l : list A) : M S E unit :=
  match l with
  | [] => ret tt
  | x :: l' => f x ;; for_each f l'
  end.

(** [async def delete_all_files(self)]; [MaxKeys] is the size of the page
    the backend lists. *)
Definition delete_all_files (self : S3StorageProvider) (be : Backend) (MaxKeys : nat)
  : M Store Failure unit :=
  try_except
    (response <- list_objects_v2 be MaxKeys (bucket_name self) (bucket_prefix self) ;;
     match response with
     | Some contents =>
         for_each (fun key => delete_object be (bucket_name self) key) contents
     | None => ret tt
     end)
    (fun e => raise (RuntimeError ("Error deleting all files from S3: " +:+ str e))).

End S3.

(** ** Worlds used to state outcomes *)

Module Outcome.
Import Knowledge.

(** The world after the calls [cs] have been logged. *)
Definition logged (cs : list Call) (w : World) : World :=
  {| knowledges := knowledges w; files := files w; blobs := blobs w;
     vectors := vectors w; calls := calls w ++ cs |}.

(** The world after the file of [form] has been indexed. *)
Definition indexed (env : Env) (form : ProcessFileForm) (w : World) : World :=
  {| knowledges := knowledges w; files := files w; blobs := blobs w;
     vectors := vectors w ++ entries_of env form; calls := calls w |}.

(** The world after the vector entries of a file in a collection, the
    file's blob and the file's record have been deleted. *)
Definition purged (collection_name : string) (f : FileModel) (fid : string)
    (w : World) : World :=
  {| knowledges := knowledges w;
     files := delete fid (files w);
     blobs := blobs w ∖ {[ f_path f ]};
     vectors := List.filter
                  (fun e => negb (VECTOR_DB_CLIENT.tagged collection_name fid e))
                  (vectors w);
     calls := calls w |}.

(** The world after the index and the record of a collection have been
    deleted. *)
Definition dropped (id : string) (w : World) : World :=
  {| knowledges := delete id (knowledges w); files := files w; blobs := blobs w;
     vectors := List.filter (fun e => negb (bool_decide (ve_collection e = id)))
                  (vectors w);
     calls := calls w |}.

(** The world after the record [id] has been replaced by [k]. *)
Definition stored (id : string) (k : KnowledgeModel) (w : World) : World :=
  {| knowledges := <[id := k]> (knowledges w); files := files w;
     blobs := blobs w; vectors := vectors w; calls := calls w |}.

(** The form the router sends to [update_knowledge_by_id] to write the
    member list [ids] into the record [k], and the record then stored. *)
Definition update_form (ids : list string) (k : KnowledgeModel) : KnowledgeUpdateForm :=
  mkUpdateForm None None (Some (<["file_ids" := ids]> (or_empty (k_data k)))).

Definition with_file_ids (ids : list string) (k : KnowledgeModel) : KnowledgeModel :=
  Knowledges.patch (update_form ids k) k.

(** Invariant I2: no stored collection lists a file twice. *)
Definition I2 (w : World) : Prop :=
  forall id k, knowledges w !! id = Some k -> NoDup (file_ids_of k).

(** The failures of the routes, by the name the spec gives them. *)
Definition not_found : Failure := HTTPException 400 (Msg NOT_FOUND).
Definition not_ready : Failure := HTTPException 400 (Msg FILE_NOT_PROCESSED).
Definition indexing_failed (e : PyExc) : Failure := HTTPException 400 (Text (str e)).
Definition conflict : Failure := HTTPException 400 (Msg (DEFAULT "file_id")).

(** What evaluating [knowledge.id] raises when [knowledge] is [None]. *)
Definition NoneType_has_no_id : Failure :=
  Unhandled (mkExc "AttributeError" "'NoneType' object has no attribute 'id'").

End Outcome.

(** ** Concrete stores for the examples *)

Module Scenario.
Import Knowledge.

(** A processed file [F1], an unprocessed file [F2], a collection [K1]
    with no member and a collection [K2] whose only member is [F1]. *)
Definition F1 : FileModel :=
  mkFile "F1" "s3://bkt/uploads/F1" (Some {[ "content" := "hello" ]}).
Definition F2 : FileModel := mkFile "F2" "s3://bkt/uploads/F2" None.
Definition K1 : KnowledgeModel := mkKnowledge "K1" "admin" "notes" "" None.
Definition K2 : KnowledgeModel :=
  mkKnowledge "K2" "admin" "papers" "" (Some {[ "file_ids" := ["F1"] ]}).

Definition w0 : World :=
  {| knowledges := {[ "K1" := K1; "K2" := K2 ]};
     files := {[ "F1" := F1; "F2" := F2 ]};
     blobs := {[ "s3://bkt/uploads/F1"; "s3://bkt/uploads/F2" ]};
     vectors := [mkEntry "K2" "F1" "hello"];
     calls := [] |}.

(** An indexing pipeline that works, and one that is down. *)
Definition env_ok : Env := mkEnv (fun _ _ => None) (fun _ => ("hello", [])).
Definition boom : PyExc := mkExc "Exception" "vector database unreachable".
Definition env_down : Env := mkEnv (fun _ _ => Some boom) (fun _ => ("hello", [])).

(** An S3 provider, a backend with no fault, an empty store. *)
Definition provider : S3.S3StorageProvider := S3.mkProvider "bkt" "uploads" "/tmp/cache".
Definition no_fault : S3.Backend := fun _ => None.
Definition denied : PyExc := mkExc "ClientError" "AccessDenied".
Definition all_fault : S3.Backend := fun _ => Some denied.
Definition empty_store : S3.Store := S3.mkStore ∅ ∅ [].

(** An operating system that refuses no directory. *)
Definition os_error : PyExc := mkExc "FileExistsError" "[Errno 17] File exists".
Definition os_ok : S3.LocalOS := S3.mkOS (fun _ => os_error) (fun _ => None).
Definition hello : S3.bytes := [Byte.x68; Byte.x69].

End Scenario.

(** * Properties *)

Import Knowledge Outcome.

(** ** The paths of [add_file_to_knowledge_by_id] *)

Ltac run_route :=
  unfold add_file_to_knowledge_by_id, remove_file_from_knowledge_by_id,
    delete_knowledge_by_id,
    Knowledges.get_knowledge_by_id, Knowledges.update_knowledge_by_id,
    Knowledges.delete_knowledge_by_id,
    Files.get_file_by_id, Files.get_files_by_ids, Files.delete_file_by_id,
    VECTOR_DB_CLIENT.delete, VECTOR_DB_CLIENT.delete_collection,
    process_file, getattr_id, try_except, bind, ret, raise, get, put, log;
  simpl.

(** Settles a decidable closed proposition by evaluating its decision. *)
Ltac by_compute :=
  match goal with
  | |- ?P => apply (@bool_decide_unpack P _); vm_compute; exact I
  end.

Ltac tidy_calls := unfold logged, indexed, purged, stored, dropped; simpl; rewrite <- ?app_assoc; simpl.

Section AddPaths.
Variables (env : Env) (id fid : string) (w : World).

Let form := mkProcessForm fid id.
Let gets := [Knowledges_get_knowledge_by_id id; Files_get_file_by_id fid].

Lemma add_file_absent :
  files w !! fid = None ->
  add_file_to_knowledge_by_id env id (mkFileIdForm fid) w
  = (Raise not_found, logged gets w).
Proof. intros Hf. run_route. rewrite Hf. tidy_calls. reflexivity. Qed.

Lemma add_file_unprocessed f :
  files w !! fid = Some f -> truthy (f_data f) = false ->
  add_file_to_knowledge_by_id env id (mkFileIdForm fid) w
  = (Raise not_ready, logged gets w).
Proof. intros Hf Hd. run_route. rewrite Hf, Hd. tidy_calls. reflexivity. Qed.

Lemma add_file_index_raises f e :
  files w !! fid = Some f -> truthy (f_data f) = true ->
  process_file_error env fid id = Some e ->
  add_file_to_knowledge_by_id env id (mkFileIdForm fid) w
  = (Raise (indexing_failed e), logged (gets ++ [call_process_file form]) w).
Proof.
  intros Hf Hd He. run_route. rewrite Hf, Hd. simpl. rewrite He.
  tidy_calls. reflexivity.
Qed.

Lemma add_file_no_collection f :
  files w !! fid = Some f -> truthy (f_data f) = true ->
  process_file_error env fid id = None ->
  knowledges w !! id = None ->
  add_file_to_knowledge_by_id env id (mkFileIdForm fid) w
  = (Raise not_found,
     indexed env form (logged (gets ++ [call_process_file form]) w)).
Proof.
  intros Hf Hd He Hk. run_route. rewrite Hf, Hd. simpl. rewrite He, Hk.
  tidy_calls. reflexivity.
Qed.

Lemma add_file_duplicate f k :
  files w !! fid = Some f -> truthy (f_data f) = true ->
  process_file_error env fid id = None ->
  knowledges w !! id = Some k -> fid ∈ file_ids_of k ->
  add_file_to_knowledge_by_id env id (mkFileIdForm fid) w
  = (Raise conflict,
     indexed env form (logged (gets ++ [call_process_file form]) w)).
Proof.
  intros Hf Hd He Hk Hin. run_route. rewrite Hf, Hd. simpl. rewrite He, Hk.
  fold (file_ids_of k). rewrite (bool_decide_eq_true_2 _ Hin). simpl.
  tidy_calls. reflexivity.
Qed.

Lemma add_file_appends f k :
  files w !! fid = Some f -> truthy (f_data f) = true ->
  process_file_error env fid id = None ->
  knowledges w !! id = Some k -> fid ∉ file_ids_of k ->
  let ids := file_ids_of k ++ [fid] in
  let k' := with_file_ids ids k in
  add_file_to_knowledge_by_id env id (mkFileIdForm fid) w
  = (Return (mkResponse k' (omap (fun i => files w !! i) ids)),
     stored id k'
       (indexed env form
          (logged (gets ++ [call_process_file form;
                            Knowledges_update_knowledge_by_id id (update_form ids k);
                            Files_get_files_by_ids ids]) w))).
Proof.
  intros Hf Hd He Hk Hin. run_route. rewrite Hf, Hd. simpl. rewrite He, Hk.
  fold (file_ids_of k). rewrite (bool_decide_eq_false_2 _ Hin). simpl.
  rewrite Hk. tidy_calls. reflexivity.
Qed.

End AddPaths.

(** ** The paths of [remove_file_from_knowledge_by_id] *)

Section RemovePaths.
Variables (id fid : string) (w : World).

Let gets := [Knowledges_get_knowledge_by_id id; Files_get_file_by_id fid].

Lemma remove_file_absent :
  files w !! fid = None ->
  remove_file_from_knowledge_by_id id (mkFileIdForm fid) w
  = (Raise not_found, logged gets w).
Proof. intros Hf. run_route. rewrite Hf. tidy_calls. reflexivity. Qed.

Lemma remove_file_no_collection f :
  files w !! fid = Some f -> knowledges w !! id = None ->
  remove_file_from_knowledge_by_id id (mkFileIdForm fid) w
  = (Raise NoneType_has_no_id, logged gets w).
Proof. intros Hf Hk. run_route. rewrite Hf, Hk. tidy_calls. reflexivity. Qed.

Lemma remove_file_not_member f k :
  files w !! fid = Some f -> knowledges w !! id = Some k ->
  fid ∉ file_ids_of k ->
  remove_file_from_knowledge_by_id id (mkFileIdForm fid) w
  = (Raise conflict,
     purged (k_id k) f fid
       (logged (gets ++ [VECTOR_DB_CLIENT_delete (k_id k) fid;
                         Files_delete_file_by_id fid]) w)).
Proof.
  intros Hf Hk Hin. run_route. rewrite Hf, Hk. simpl. rewrite Hf. simpl.
  fold (file_ids_of k). rewrite (bool_decide_eq_false_2 _ Hin).
  tidy_calls. reflexivity.
Qed.

Lemma remove_file_member f k :
  files w !! fid = Some f -> knowledges w !! id = Some k ->
  fid ∈ file_ids_of k ->
  let ids := list_remove fid (file_ids_of k) in
  let k' := with_file_ids ids k in
  remove_file_from_knowledge_by_id id (mkFileIdForm fid) w
  = (Return (mkResponse k' (omap (fun i => delete fid (files w) !! i) ids)),
     stored id k'
       (purged (k_id k) f fid
          (logged (gets ++ [VECTOR_DB_CLIENT_delete (k_id k) fid;
                            Files_delete_file_by_id fid;
                            Knowledges_update_knowledge_by_id id (update_form ids k);
                            Files_get_files_by_ids ids]) w))).
Proof.
  intros Hf Hk Hin. run_route. rewrite Hf, Hk. simpl. rewrite Hf. simpl.
  fold (file_ids_of k). rewrite (bool_decide_eq_true_2 _ Hin). simpl.
  rewrite Hk. tidy_calls. reflexivity.
Qed.

End RemovePaths.

(** ** The path of [delete_knowledge_by_id] *)

Lemma delete_knowledge_run id w :
  delete_knowledge_by_id id w
  = (Return (bool_decide (is_Some (knowledges w !! id))),
     dropped id
       (logged [VECTOR_DB_CLIENT_delete_collection id;
                Knowledges_delete_knowledge_by_id id] w)).
Proof.
  run_route. destruct (knowledges w !! id) as [k|] eqn:Hk; tidy_calls.
  - reflexivity.
  - rewrite delete_id by exact Hk. reflexivity.
Qed.

(** ** Helper facts on member lists *)

Lemma file_ids_of_with_file_ids ids k : file_ids_of (with_file_ids ids k) = ids.
Proof.
  unfold file_ids_of, with_file_ids, update_form, Knowledges.patch, or_empty at 1,
    truthy at 1, dict_get. simpl.
  rewrite bool_decide_eq_false_2 by apply insert_non_empty. simpl.
  rewrite lookup_insert_eq. reflexivity.
Qed.

Lemma list_remove_subseteq x l y : y ∈ list_remove x l -> y ∈ l.
Proof.
  induction l as [|z l IH]; simpl; [done|].
  case_bool_decide; intros Hy; rewrite elem_of_cons.
  - by right.
  - apply elem_of_cons in Hy as [->|Hy]; auto.
Qed.

Lemma list_remove_NoDup x l : NoDup l -> NoDup (list_remove x l).
Proof.
  induction 1 as [|z l Hz Hl IH]; simpl; [constructor|].
  case_bool_decide; [done|].
  constructor; [|done]. intros Hin. apply Hz. eauto using list_remove_subseteq.
Qed.

Lemma list_remove_not_elem x l : NoDup l -> x ∉ list_remove x l.
Proof.
  induction 1 as [|z l Hz Hl IH]; simpl; [apply not_elem_of_nil|].
  case_bool_decide as Hx; [by subst|].
  intros Hin. apply elem_of_cons in Hin as [?|?]; [done|]. by apply IH.
Qed.

Lemma entries_of_tagged env form e :
  e ∈ entries_of env form ->
  ve_collection e = pf_collection_name form /\ ve_file_id e = pf_file_id form.
Proof.
  unfold entries_of. destruct (passages env (pf_file_id form)) as [p ps].
  intros Hin. apply list_elem_of_In, in_map_iff in Hin as (q & <- & _). done.
Qed.

Lemma entries_of_length env form : (0 < length (entries_of env form))%nat.
Proof.
  unfold entries_of. destruct (passages env (pf_file_id form)) as [p ps].
  simpl. lia.
Qed.

(** What the two mutating routes leave in the knowledge table: nothing new,
    or the record [id] with its member list replaced. *)
Lemma add_file_knowledges env id fid w :
  let w' := snd (add_file_to_knowledge_by_id env id (mkFileIdForm fid) w) in
  knowledges w' = knowledges w \/
  exists k, knowledges w !! id = Some k /\ (fid ∉ file_ids_of k) /\
    knowledges w' = <[id := with_file_ids (file_ids_of k ++ [fid]) k]> (knowledges w).
Proof.
  simpl.
  destruct (files w !! fid) as [f|] eqn:Hf;
    [|rewrite add_file_absent by done; by left].
  destruct (truthy (f_data f)) eqn:Hd;
    [|rewrite (add_file_unprocessed _ _ _ _ f) by done; by left].
  destruct (process_file_error env fid id) as [e|] eqn:He;
    [rewrite (add_file_index_raises _ _ _ _ f e) by done; by left|].
  destruct (knowledges w !! id) as [k|] eqn:Hk;
    [|rewrite (add_file_no_collection _ _ _ _ f) by done; by left].
  destruct (decide (fid ∈ file_ids_of k)) as [Hin|Hin].
  - rewrite (add_file_duplicate _ _ _ _ f k) by done. by left.
  - rewrite (add_file_appends _ _ _ _ f k) by done. right. by exists k.
Qed.

Lemma remove_file_knowledges id fid w :
  let w' := snd (remove_file_from_knowledge_by_id id (mkFileIdForm fid) w) in
  knowledges w' = knowledges w \/
  exists k, knowledges w !! id = Some k /\ fid ∈ file_ids_of k /\
    knowledges w' = <[id := with_file_ids (list_remove fid (file_ids_of k)) k]> (knowledges w).
Proof.
  simpl.
  destruct (files w !! fid) as [f|] eqn:Hf;
    [|rewrite remove_file_absent by done; by left].
  destruct (knowledges w !! id) as [k|] eqn:Hk;
    [|rewrite (remove_file_no_collection _ _ _ f) by done; by left].
  destruct (decide (fid ∈ file_ids_of k)) as [Hin|Hin].
  - rewrite (remove_file_member _ _ _ f k) by done. right. by exists k.
  - rewrite (remove_file_not_member _ _ _ f k) by done. by left.
Qed.

Lemma I2_same w w' : knowledges w' = knowledges w -> I2 w -> I2 w'.
Proof. unfold I2. intros ->. auto. Qed.

Lemma I2_stored id ids k w w' :
  knowledges w' = <[id := with_file_ids ids k]> (knowledges w) ->
  NoDup ids -> I2 w -> I2 w'.
Proof.
  unfold I2. intros -> Hids Hw id' k' Hk'.
  destruct (decide (id = id')) as [->|Hne].
  - rewrite lookup_insert_eq in Hk'. injection Hk' as <-.
    by rewrite file_ids_of_with_file_ids.
  - rewrite lookup_insert_ne in Hk' by done. eauto.
Qed.

(** ** Claims on the knowledge router *)

Import Scenario.

(** C1. [remove_file_from_knowledge_by_id] on a file that has a record and a
    collection that has none: the route evaluates [knowledge.id] on [None]
    before the vector database is called, so it raises [AttributeError]
    instead of the [HTTPException] with [NOT_FOUND] its last branch holds
    for a missing collection; nothing has been deleted at that point. *)
Theorem remove_file_missing_collection_raises_AttributeError :
  files w0 !! "F1" = Some F1 /\
  knowledges w0 !! "K9" = None /\
  remove_file_from_knowledge_by_id "K9" (mkFileIdForm "F1") w0
  = (Raise NoneType_has_no_id,
     logged [Knowledges_get_knowledge_by_id "K9"; Files_get_file_by_id "F1"] w0) /\
  NoneType_has_no_id <> not_found.
Proof.
  assert (Hf : files w0 !! "F1" = Some F1) by (vm_compute; reflexivity).
  assert (Hk : knowledges w0 !! "K9" = None) by (vm_compute; reflexivity).
  split; [exact Hf|]. split; [exact Hk|]. split.
  - exact (remove_file_no_collection "K9" "F1" w0 F1 Hf Hk).
  - discriminate.
Qed.

(** C2 (as stated, refuted). The failure for a missing file record and the
    failure for a missing collection record are not distinct: adding the
    absent file [F9] to [K1] and adding the processed file [F1] to the
    absent collection [K9] raise the same [HTTPException], status 400 with
    detail [NOT_FOUND]. *)
Lemma add_file_not_found_failures_coincide :
  files w0 !! "F9" = None /\
  (files w0 !! "F1" = Some F1 /\ truthy (f_data F1) = true /\
   knowledges w0 !! "K9" = None) /\
  fst (add_file_to_knowledge_by_id env_ok "K1" (mkFileIdForm "F9") w0)
  = fst (add_file_to_knowledge_by_id env_ok "K9" (mkFileIdForm "F1") w0).
Proof. vm_compute. repeat split; reflexivity. Qed.

(** C2 (amended). [add_file_to_knowledge_by_id] checks in this order, and a
    later check is reached only when the earlier ones pass: (1) the file
    record exists, else 400 [NOT_FOUND]; (2) the file is processed, else 400
    [FILE_NOT_PROCESSED]; (3) indexing does not raise, else 400 with the
    text of the exception; (4) the collection record exists, else 400
    [NOT_FOUND], the same failure as (1); (5) the file is not yet a member,
    else 400 [DEFAULT("file_id")]. Up to (2) the index is not called; from
    (4) on the index has been written, also when the collection has no
    record. When all five pass the call returns. *)
Theorem add_file_precondition_order env id fid w :
  let run := add_file_to_knowledge_by_id env id (mkFileIdForm fid) w in
  let form := mkProcessForm fid id in
  let gets := [Knowledges_get_knowledge_by_id id; Files_get_file_by_id fid] in
  (files w !! fid = None ->
     fst run = Raise not_found /\
     vectors (snd run) = vectors w /\ calls (snd run) = calls w ++ gets) /\
  (forall f, files w !! fid = Some f -> truthy (f_data f) = false ->
     fst run = Raise not_ready /\
     vectors (snd run) = vectors w /\ calls (snd run) = calls w ++ gets) /\
  (forall f e, files w !! fid = Some f -> truthy (f_data f) = true ->
     process_file_error env fid id = Some e ->
     fst run = Raise (indexing_failed e) /\
     vectors (snd run) = vectors w /\
     calls (snd run) = calls w ++ gets ++ [call_process_file form]) /\
  (forall f, files w !! fid = Some f -> truthy (f_data f) = true ->
     process_file_error env fid id = None ->
     knowledges w !! id = None ->
     fst run = Raise not_found /\
     vectors (snd run) = vectors w ++ entries_of env form /\
     calls (snd run) = calls w ++ gets ++ [call_process_file form]) /\
  (forall f k, files w !! fid = Some f -> truthy (f_data f) = true ->
     process_file_error env fid id = None ->
     knowledges w !! id = Some k -> fid ∈ file_ids_of k ->
     fst run = Raise conflict /\
     vectors (snd run) = vectors w ++ entries_of env form /\
     calls (snd run) = calls w ++ gets ++ [call_process_file form]) /\
  (forall f k, files w !! fid = Some f -> truthy (f_data f) = true ->
     process_file_error env fid id = None ->
     knowledges w !! id = Some k -> fid ∉ file_ids_of k ->
     exists response, fst run = Return response /\
       file_ids_of (r_knowledge response) = file_ids_of k ++ [fid] /\
       knowledges (snd run) !! id = Some (r_knowledge response) /\
       vectors (snd run) = vectors w ++ entries_of env form).
Proof.
  cbv zeta. repeat split; intros.
  all: try (rewrite add_file_absent by done; done).
  all: try (erewrite add_file_unprocessed by done; done).
  all: try (erewrite add_file_index_raises by done; done).
  all: try (erewrite add_file_no_collection by done; done).
  all: try (erewrite add_file_duplicate by done; done).
  erewrite add_file_appends by done. simpl. eexists. split; [reflexivity|].
  simpl. rewrite file_ids_of_with_file_ids, lookup_insert_eq. done.
Qed.

(** The six cases of C2 at concrete calls on [w0]. *)
Lemma add_file_precondition_order_witness :
  fst (add_file_to_knowledge_by_id env_ok "K1" (mkFileIdForm "F9") w0)
    = Raise not_found /\
  fst (add_file_to_knowledge_by_id env_ok "K1" (mkFileIdForm "F2") w0)
    = Raise not_ready /\
  fst (add_file_to_knowledge_by_id env_down "K1" (mkFileIdForm "F1") w0)
    = Raise (indexing_failed boom) /\
  (fst (add_file_to_knowledge_by_id env_ok "K9" (mkFileIdForm "F1") w0)
     = Raise not_found /\
   vectors (snd (add_file_to_knowledge_by_id env_ok "K9" (mkFileIdForm "F1") w0))
     = vectors w0 ++ entries_of env_ok (mkProcessForm "F1" "K9")) /\
  fst (add_file_to_knowledge_by_id env_ok "K2" (mkFileIdForm "F1") w0)
    = Raise conflict /\
  (exists response,
     fst (add_file_to_knowledge_by_id env_ok "K1" (mkFileIdForm "F1") w0)
       = Return response /\
     file_ids_of (r_knowledge response) = file_ids_of K1 ++ ["F1"]).
Proof.
  split; [|split; [|split; [|split; [|split]]]].
  - apply (add_file_precondition_order env_ok "K1" "F9" w0). vm_compute; reflexivity.
  - apply (add_file_precondition_order env_ok "K1" "F2" w0) with (f := F2);
      vm_compute; reflexivity.
  - apply (add_file_precondition_order env_down "K1" "F1" w0) with (f := F1);
      vm_compute; reflexivity.
  - destruct (add_file_precondition_order env_ok "K9" "F1" w0)
      as (_ & _ & _ & H4 & _).
    destruct (H4 F1) as (Hr & Hv & _); try (vm_compute; reflexivity).
    split; [exact Hr | exact Hv].
  - destruct (add_file_precondition_order env_ok "K2" "F1" w0)
      as (_ & _ & _ & _ & H5 & _).
    apply (H5 F1 K2); try (vm_compute; reflexivity).
    by_compute.
  - destruct (add_file_precondition_order env_ok "K1" "F1" w0)
      as (_ & _ & _ & _ & _ & H6).
    destruct (H6 F1 K1) as (response & Hr & Hids & _); try (vm_compute; reflexivity).
    + by_compute.
    + exists response. split; [exact Hr | exact Hids].
Defined.

(** C3 (as stated, refuted). Indexing [F1] into [K2], of which [F1] is
    already a member, while the vector database is down: the call aborts
    with the indexing failure and writes nothing, so the member list of [K2]
    still contains [F1] afterwards. *)
Lemma add_file_index_failure_member_stays :
  let run := add_file_to_knowledge_by_id env_down "K2" (mkFileIdForm "F1") w0 in
  process_file_error env_down "F1" "K2" = Some boom /\
  fst run = Raise (indexing_failed boom) /\
  exists k, knowledges (snd run) !! "K2" = Some k /\ "F1" ∈ file_ids_of k.
Proof.
  cbv zeta. split; [reflexivity|]. split; [vm_compute; reflexivity|].
  exists K2. split; [vm_compute; reflexivity | by_compute].
Qed.

(** C3 (amended). When the indexing step of [add_file_to_knowledge_by_id]
    raises, the call aborts with 400 and the text of the exception, and the
    knowledge table, the file table, the blobs and the vector index are as
    before: the only calls made are the two reads and [process_file], no
    update. The member list of the collection is unchanged, so it contains
    the file afterwards only if it did before. *)
Theorem add_file_index_failure_changes_nothing env id fid w f e :
  files w !! fid = Some f -> truthy (f_data f) = true ->
  process_file_error env fid id = Some e ->
  let run := add_file_to_knowledge_by_id env id (mkFileIdForm fid) w in
  fst run = Raise (indexing_failed e) /\
  knowledges (snd run) = knowledges w /\
  files (snd run) = files w /\ blobs (snd run) = blobs w /\
  vectors (snd run) = vectors w /\
  calls (snd run)
  = calls w ++ [Knowledges_get_knowledge_by_id id; Files_get_file_by_id fid;
                call_process_file (mkProcessForm fid id)] /\
  (forall k, knowledges w !! id = Some k -> fid ∉ file_ids_of k ->
     forall k', knowledges (snd run) !! id = Some k' -> fid ∉ file_ids_of k').
Proof.
  intros Hf Hd He. cbv zeta.
  rewrite (add_file_index_raises env id fid w f e Hf Hd He). simpl.
  repeat split; try reflexivity.
  intros k Hk Hin k' Hk'. congruence.
Qed.

(** Adding [F1] to [K1] while the vector database is down. *)
Lemma add_file_index_failure_changes_nothing_witness :
  let run := add_file_to_knowledge_by_id env_down "K1" (mkFileIdForm "F1") w0 in
  fst run = Raise (indexing_failed boom) /\
  knowledges (snd run) = knowledges w0 /\
  vectors (snd run) = vectors w0.
Proof.
  destruct (add_file_index_failure_changes_nothing env_down "K1" "F1" w0 F1 boom)
    as (Hr & Hk & _ & _ & Hv & _); try (vm_compute; reflexivity).
  cbv zeta. split; [exact Hr|]. split; [exact Hk | exact Hv].
Defined.

(** A call of [remove_file_from_knowledge_by_id] that fails with 400
    [DEFAULT("file_id")] found the file record and the collection record,
    and the file not in the member list. *)
Lemma remove_file_conflict_inv id fid w :
  fst (remove_file_from_knowledge_by_id id (mkFileIdForm fid) w) = Raise conflict ->
  exists f k, files w !! fid = Some f /\ knowledges w !! id = Some k /\
    (fid ∉ file_ids_of k).
Proof.
  destruct (files w !! fid) as [f|] eqn:Hf;
    [|rewrite remove_file_absent by done; discriminate].
  destruct (knowledges w !! id) as [k|] eqn:Hk;
    [|rewrite (remove_file_no_collection _ _ _ f) by done; discriminate].
  destruct (decide (fid ∈ file_ids_of k)) as [Hin|Hin];
    [rewrite (remove_file_member _ _ _ f k) by done; discriminate|].
  intros _. by exists f, k.
Qed.

(** C4. In [remove_file_from_knowledge_by_id] the vector entries of the
    file, its blob and its record are deleted before the member list is
    looked at. For a file that has a record and a collection that has one,
    the two deletions are the first calls after the two reads, and the world
    left has no record, no blob and no vector entry of the file, whether the
    file is a member or not; when it is not, the call fails with 400
    [DEFAULT("file_id")]. And every call that fails with 400
    [DEFAULT("file_id")] has made the two deletions and nothing after them:
    the file's record, blob and vector entries are gone, the knowledge
    table is as before, nothing is restored. *)
Theorem remove_file_deletes_before_membership_check id fid w :
  let run := remove_file_from_knowledge_by_id id (mkFileIdForm fid) w in
  let deletions k := [Knowledges_get_knowledge_by_id id; Files_get_file_by_id fid;
                      VECTOR_DB_CLIENT_delete (k_id k) fid;
                      Files_delete_file_by_id fid] in
  let deleted f k :=
    files (snd run) = delete fid (files w) /\
    files (snd run) !! fid = None /\
    (f_path f ∉ blobs (snd run)) /\
    Forall (fun e => ~ (ve_collection e = k_id k /\ ve_file_id e = fid))
      (vectors (snd run)) in
  (forall f k, files w !! fid = Some f -> knowledges w !! id = Some k ->
     (exists later, calls (snd run) = calls w ++ deletions k ++ later) /\
     deleted f k /\
     (fid ∉ file_ids_of k -> fst run = Raise conflict)) /\
  (fst run = Raise conflict ->
     exists f k, files w !! fid = Some f /\ knowledges w !! id = Some k /\
       calls (snd run) = calls w ++ deletions k /\
       deleted f k /\
       knowledges (snd run) = knowledges w).
Proof.
  cbv zeta.
  assert (Hvec : forall k,
    Forall (fun e => ~ (ve_collection e = k_id k /\ ve_file_id e = fid))
      (List.filter (fun e => negb (VECTOR_DB_CLIENT.tagged (k_id k) fid e)) (vectors w))).
  { intros k. apply Forall_forall. intros e He [H1 H2].
    apply list_elem_of_In, filter_In in He as [_ He].
    unfold VECTOR_DB_CLIENT.tagged in He.
    rewrite !bool_decide_eq_true_2 in He by done. discriminate. }
  assert (Hblob : forall f, f_path f ∉ blobs w ∖ {[ f_path f ]}).
  { intros f [_ Hn]%elem_of_difference. apply Hn. by apply elem_of_singleton. }
  split.
  - intros f k Hf Hk.
    destruct (decide (fid ∈ file_ids_of k)) as [Hin|Hin].
    + rewrite (remove_file_member id fid w f k Hf Hk Hin). simpl.
      split; [eexists; reflexivity|].
      split; [|done].
      split; [reflexivity|]. split; [apply lookup_delete_eq|].
      split; [apply Hblob | apply Hvec].
    + rewrite (remove_file_not_member id fid w f k Hf Hk Hin). simpl.
      split; [exists []; reflexivity|].
      split; [|done].
      split; [reflexivity|]. split; [apply lookup_delete_eq|].
      split; [apply Hblob | apply Hvec].
  - intros Hc. apply remove_file_conflict_inv in Hc as (f & k & Hf & Hk & Hin).
    exists f, k. rewrite (remove_file_not_member id fid w f k Hf Hk Hin). simpl.
    split; [done|]. split; [done|]. split; [reflexivity|].
    split; [|reflexivity].
    split; [reflexivity|]. split; [apply lookup_delete_eq|].
    split; [apply Hblob | apply Hvec].
Qed.

(** Removing the file [F2] from [K1], of which it is no member: the call
    fails with the conflict, and the record and the blob of [F2] are gone. *)
Lemma remove_file_deletes_before_membership_check_witness :
  let run := remove_file_from_knowledge_by_id "K1" (mkFileIdForm "F2") w0 in
  fst run = Raise conflict /\
  files (snd run) !! "F2" = None /\
  (f_path F2 ∉ blobs (snd run)) /\
  knowledges (snd run) = knowledges w0.
Proof.
  destruct (remove_file_deletes_before_membership_check "K1" "F2" w0) as [Hall Hconf].
  destruct (Hall F2 K1) as (_ & _ & Hr); try (vm_compute; reflexivity).
  specialize (Hr ltac:(by_compute)).
  destruct (Hconf Hr) as (f & k & Hf & _ & _ & (_ & Hgone & Hblob & _) & Hsame).
  assert (HF2 : files w0 !! "F2" = Some F2) by (vm_compute; reflexivity).
  assert (f = F2) as -> by congruence.
  cbv zeta. split; [exact Hr|]. split; [exact Hgone|]. split; [exact Hblob | exact Hsame].
Defined.

(** A call of [add_file_to_knowledge_by_id] that returns has passed the five
    checks and stored the member list with the file appended. *)
Lemma add_file_returns env id fid w response w1 :
  add_file_to_knowledge_by_id env id (mkFileIdForm fid) w = (Return response, w1) ->
  exists f k,
    files w !! fid = Some f /\ truthy (f_data f) = true /\
    process_file_error env fid id = None /\
    knowledges w !! id = Some k /\ (fid ∉ file_ids_of k) /\
    files w1 = files w /\
    knowledges w1 = <[id := with_file_ids (file_ids_of k ++ [fid]) k]> (knowledges w).
Proof.
  destruct (files w !! fid) as [f|] eqn:Hf;
    [|rewrite add_file_absent by done; discriminate].
  destruct (truthy (f_data f)) eqn:Hd;
    [|rewrite (add_file_unprocessed _ _ _ _ f) by done; discriminate].
  destruct (process_file_error env fid id) as [e|] eqn:He;
    [rewrite (add_file_index_raises _ _ _ _ f e) by done; discriminate|].
  destruct (knowledges w !! id) as [k|] eqn:Hk;
    [|rewrite (add_file_no_collection _ _ _ _ f) by done; discriminate].
  destruct (decide (fid ∈ file_ids_of k)) as [Hin|Hin];
    [rewrite (add_file_duplicate _ _ _ _ f k) by done; discriminate|].
  rewrite (add_file_appends _ _ _ _ f k) by done.
  intros [= _ <-]. exists f, k. simpl. done.
Qed.

(** C5. Invariant I2: when no stored collection lists a file twice, none
    does after [add_file_to_knowledge_by_id], after
    [remove_file_from_knowledge_by_id] or after [delete_knowledge_by_id].
    Adding a file that is already a member leaves the knowledge table as it
    is, whatever the outcome; and after an add that returned, a second add
    of the same file to the same collection fails with 400
    [DEFAULT("file_id")] and leaves the table, so the member list, as the
    first call stored it (the second call being made with the index working
    as in the first, or with any index that does not raise). *)
Theorem file_ids_no_duplicates env id fid w :
  I2 w ->
  I2 (snd (add_file_to_knowledge_by_id env id (mkFileIdForm fid) w)) /\
  I2 (snd (remove_file_from_knowledge_by_id id (mkFileIdForm fid) w)) /\
  I2 (snd (delete_knowledge_by_id id w)) /\
  (forall k, knowledges w !! id = Some k -> fid ∈ file_ids_of k ->
     knowledges (snd (add_file_to_knowledge_by_id env id (mkFileIdForm fid) w))
     = knowledges w) /\
  (forall response w1,
     add_file_to_knowledge_by_id env id (mkFileIdForm fid) w = (Return response, w1) ->
     (fst (add_file_to_knowledge_by_id env id (mkFileIdForm fid) w1) = Raise conflict /\
      knowledges (snd (add_file_to_knowledge_by_id env id (mkFileIdForm fid) w1))
      = knowledges w1) /\
     (forall env2, process_file_error env2 fid id = None ->
        fst (add_file_to_knowledge_by_id env2 id (mkFileIdForm fid) w1) = Raise conflict /\
        knowledges (snd (add_file_to_knowledge_by_id env2 id (mkFileIdForm fid) w1))
        = knowledges w1)).
Proof.
  intros HI. split; [|split; [|split; [|split]]].
  - destruct (add_file_knowledges env id fid w) as [Hsame|(k & Hk & Hin & Hst)].
    + exact (I2_same _ _ Hsame HI).
    + refine (I2_stored _ _ _ _ _ Hst _ HI).
      apply NoDup_app. split; [exact (HI id k Hk)|]. split; [|apply NoDup_singleton].
      intros x Hx Hx'. apply list_elem_of_singleton in Hx'. by subst.
  - destruct (remove_file_knowledges id fid w) as [Hsame|(k & Hk & Hin & Hst)].
    + exact (I2_same _ _ Hsame HI).
    + refine (I2_stored _ _ _ _ _ Hst _ HI).
      apply list_remove_NoDup. exact (HI id k Hk).
  - rewrite delete_knowledge_run. simpl. intros id' k' Hk'. simpl in Hk'.
    apply lookup_delete_Some in Hk' as [_ Hk']. exact (HI id' k' Hk').
  - intros k Hk Hin.
    destruct (add_file_knowledges env id fid w) as [Hsame|(k0 & Hk0 & Hin0 & _)];
      [exact Hsame | congruence].
  - intros response w1 Hrun.
    apply add_file_returns in Hrun as (f & k & Hf & Hd & He & Hk & Hin & Hf1 & Hk1).
    assert (Hdup : forall env2, process_file_error env2 fid id = None ->
      fst (add_file_to_knowledge_by_id env2 id (mkFileIdForm fid) w1) = Raise conflict /\
      knowledges (snd (add_file_to_knowledge_by_id env2 id (mkFileIdForm fid) w1))
      = knowledges w1).
    { intros env2 He2.
      rewrite (add_file_duplicate env2 id fid w1 f
                 (with_file_ids (file_ids_of k ++ [fid]) k)); [done|..].
      - by rewrite Hf1.
      - exact Hd.
      - exact He2.
      - rewrite Hk1. apply lookup_insert_eq.
      - rewrite file_ids_of_with_file_ids. apply elem_of_app. right.
        by apply list_elem_of_singleton. }
    split; [exact (Hdup env He) | exact Hdup].
Qed.

Lemma I2_w0 : I2 w0.
Proof.
  intros id k Hk. unfold w0 in Hk. cbn [knowledges] in Hk.
  apply lookup_insert_Some in Hk as [[_ <-]|[_ Hk]]; [by_compute|].
  apply lookup_singleton_Some in Hk as [_ <-]. by_compute.
Qed.

(** Adding [F1] to [K1] twice on [w0], where no collection lists a file
    twice: the second call is the conflict, and the member list stays. *)
Lemma file_ids_no_duplicates_witness :
  let first := add_file_to_knowledge_by_id env_ok "K1" (mkFileIdForm "F1") w0 in
  let second := add_file_to_knowledge_by_id env_ok "K1" (mkFileIdForm "F1") (snd first) in
  I2 w0 /\ I2 (snd first) /\
  fst second = Raise conflict /\ knowledges (snd second) = knowledges (snd first).
Proof.
  cbv zeta. pose proof I2_w0 as HI.
  destruct (file_ids_no_duplicates env_ok "K1" "F1" w0 HI)
    as (Hadd & _ & _ & _ & Htwice).
  split; [exact HI|]. split; [exact Hadd|].
  destruct (add_file_to_knowledge_by_id env_ok "K1" (mkFileIdForm "F1") w0)
    as [[response|e] w1] eqn:Hrun.
  - exact (proj1 (Htwice response w1 eq_refl)).
  - vm_compute in Hrun. discriminate.
Defined.

(** C6. [delete_knowledge_by_id] makes exactly two calls, whatever the
    stores hold: the deletion of the vector index of the collection first,
    the deletion of the knowledge record second. It never raises and returns
    whether the record existed; afterwards the collection has neither record
    nor vector entry, the files are untouched, and a second deletion returns
    [False]. *)
Theorem delete_knowledge_by_id_idempotent id w :
  let run := delete_knowledge_by_id id w in
  calls (snd run)
  = calls w ++ [VECTOR_DB_CLIENT_delete_collection id;
                Knowledges_delete_knowledge_by_id id] /\
  fst run = Return (bool_decide (is_Some (knowledges w !! id))) /\
  knowledges (snd run) = delete id (knowledges w) /\
  Forall (fun e => ve_collection e <> id) (vectors (snd run)) /\
  files (snd run) = files w /\ blobs (snd run) = blobs w /\
  fst (delete_knowledge_by_id id (snd run)) = Return false.
Proof.
  cbv zeta. rewrite !delete_knowledge_run. simpl.
  repeat split.
  - apply Forall_forall. intros e He.
    apply list_elem_of_In, filter_In in He as [_ He].
    apply negb_true_iff, bool_decide_eq_false in He. exact He.
  - rewrite lookup_delete_eq. reflexivity.
Qed.

(** C9 (as stated, refuted). [F1] has a record and is processed, [K2] has a
    record and lists [F1], yet with the vector database down the call does
    not fail with the duplicate-member conflict: it fails at the indexing
    step, and the index is as before. *)
Lemma add_file_member_index_down_is_no_conflict :
  let run := add_file_to_knowledge_by_id env_down "K2" (mkFileIdForm "F1") w0 in
  (files w0 !! "F1" = Some F1 /\ truthy (f_data F1) = true /\
   knowledges w0 !! "K2" = Some K2 /\ "F1" ∈ file_ids_of K2) /\
  fst run <> Raise conflict /\
  fst run = Raise (indexing_failed boom) /\
  vectors (snd run) = vectors w0.
Proof.
  cbv zeta. split; [|split; [|split]].
  - repeat split; try (vm_compute; reflexivity). by_compute.
  - vm_compute. discriminate.
  - vm_compute. reflexivity.
  - vm_compute. reflexivity.
Qed.

(** C9 (amended). When the file has a record and is processed, the indexing
    step does not raise, the collection has a record and the file is already
    a member, [add_file_to_knowledge_by_id] fails with 400
    [DEFAULT("file_id")] after [process_file] has run: the call is in the
    log, the entries of the file have been added to the index of the
    collection, which is longer than before, and the knowledge table is as
    before. *)
Theorem add_file_duplicate_member_indexes_first env id fid w f k :
  files w !! fid = Some f -> truthy (f_data f) = true ->
  process_file_error env fid id = None ->
  knowledges w !! id = Some k -> fid ∈ file_ids_of k ->
  let run := add_file_to_knowledge_by_id env id (mkFileIdForm fid) w in
  let form := mkProcessForm fid id in
  fst run = Raise conflict /\
  calls (snd run)
  = calls w ++ [Knowledges_get_knowledge_by_id id; Files_get_file_by_id fid;
                call_process_file form] /\
  vectors (snd run) = vectors w ++ entries_of env form /\
  (length (vectors w) < length (vectors (snd run)))%nat /\
  (exists e, e ∈ vectors (snd run) /\ ve_collection e = id /\ ve_file_id e = fid) /\
  knowledges (snd run) = knowledges w.
Proof.
  intros Hf Hd He Hk Hin. cbv zeta.
  rewrite (add_file_duplicate env id fid w f k Hf Hd He Hk Hin). simpl.
  pose proof (entries_of_length env (mkProcessForm fid id)) as Hlen.
  repeat split; try reflexivity.
  - rewrite length_app. lia.
  - destruct (entries_of env (mkProcessForm fid id)) as [|e es] eqn:Hes;
      [simpl in Hlen; lia|].
    exists e. split.
    + apply elem_of_app. right. apply elem_of_cons. by left.
    + apply (entries_of_tagged env (mkProcessForm fid id)).
      rewrite Hes. apply elem_of_cons. by left.
Qed.

(** Adding [F1] again to [K2], with the index working. *)
Lemma add_file_duplicate_member_indexes_first_witness :
  let run := add_file_to_knowledge_by_id env_ok "K2" (mkFileIdForm "F1") w0 in
  fst run = Raise conflict /\
  (length (vectors w0) < length (vectors (snd run)))%nat /\
  knowledges (snd run) = knowledges w0.
Proof.
  destruct (add_file_duplicate_member_indexes_first env_ok "K2" "F1" w0 F1 K2)
    as (Hr & _ & _ & Hlen & _ & Hk); try (vm_compute; reflexivity); [by_compute|].
  cbv zeta. split; [exact Hr|]. split; [exact Hlen | exact Hk].
Defined.

(** ** Splitting a locator *)

Lemma occurs_false_inv sep c s :
  occurs sep (String c s) = false ->
  String.prefix sep (String c s) = false /\ occurs sep s = false.
Proof. simpl. intros H. apply orb_false_iff in H. exact H. Qed.

Lemma partition_none sep s : occurs sep s = false -> partition sep s = None.
Proof.
  induction s as [|c s IH]; intros H.
  - simpl in *. apply orb_false_iff in H as [-> _]. reflexivity.
  - apply occurs_false_inv in H as [Hp Ho].
    cbn [partition]. rewrite Hp, (IH Ho). reflexivity.
Qed.

(** Partition at a one-character separator that the text before it lacks. *)
Lemma partition_char c a b :
  occurs (String c EmptyString) a = false ->
  partition (String c EmptyString) (a +:+ String c b) = Some (a, b).
Proof.
  induction a as [|x a IH]; intros H.
  - simpl. destruct (ascii_dec c c) as [_|Hne]; [|congruence].
    destruct b; reflexivity.
  - apply occurs_false_inv in H as [Hp Ho].
    change (String x a +:+ String c b) with (String x (a +:+ String c b)).
    cbn [partition]. 
    assert (Hp' : String.prefix (String c EmptyString) (String x (a +:+ String c b)) = false).
    { simpl in *. destruct (ascii_dec c x); [|reflexivity].
      destruct a; discriminate. }
    rewrite Hp', (IH Ho). reflexivity.
Qed.

Lemma splitn_none n sep s : partition sep s = None -> splitn n sep s = [s].
Proof. intros H. destruct n; simpl; [|rewrite H]; reflexivity. Qed.

Lemma partition_scheme rest : partition "//" ("s3://" +:+ rest) = Some ("s3:", rest).
Proof. destruct rest; reflexivity. Qed.

Lemma split_scheme rest :
  occurs "//" rest = false -> split "//" ("s3://" +:+ rest) = ["s3:"; rest].
Proof.
  intros H. unfold split.
  change (String.length ("s3://" +:+ rest)) with (S (4 + String.length rest)).
  cbn [splitn]. rewrite partition_scheme.
  rewrite splitn_none by (apply partition_none; exact H). reflexivity.
Qed.

Import S3.

(** The locator [upload_file] returns parses back to the bucket and the key
    it wrote, when the bucket name has no slash and the bucket name, a
    slash and the key together have no double slash. *)
Lemma parse_locator_locator {S} self filename (s : S) :
  occurs "/" (bucket_name self) = false ->
  occurs "//" (bucket_name self +:+ "/" +:+ object_key self filename) = false ->
  parse_locator (locator self filename) s
  = (Return (bucket_name self, object_key self filename), s).
Proof.
  intros Hb Hk. unfold parse_locator.
  change (locator self filename)
    with ("s3://" +:+ (bucket_name self +:+ "/" +:+ object_key self filename)).
  rewrite (split_scheme _ Hk). cbn [lookup list_lookup].
  change (bucket_name self +:+ "/" +:+ object_key self filename)
    with (bucket_name self +:+ String "/" (object_key self filename)).
  cbn [splitn]. rewrite (partition_char _ _ _ Hb). reflexivity.
Qed.

(** [occurs] is the occurrence of a substring. *)
Lemma prefix_app sep s : String.prefix sep s = true <-> exists b, s = sep +:+ b.
Proof.
  revert s. induction sep as [|c sep IH]; intros s.
  - split; [intros _; by exists s | intros _; by destruct s].
  - destruct s as [|x s]; simpl.
    + split; [discriminate | intros [b Hb]; discriminate].
    + destruct (ascii_dec c x) as [->|Hne].
      * rewrite IH. split; intros [b Hb]; exists b; [by rewrite Hb | by injection Hb].
      * split; [discriminate | intros [b Hb]; injection Hb; congruence].
Qed.

Lemma occurs_spec sep s :
  occurs sep s = true <-> exists a b, s = a +:+ sep +:+ b.
Proof.
  induction s as [|c s IH].
  - cbn [occurs]. rewrite orb_false_r, prefix_app. split.
    + intros [b Hb]. by exists EmptyString, b.
    + intros (a & b & Hab). destruct a; [by exists b | discriminate].
  - cbn [occurs]. rewrite orb_true_iff, prefix_app, IH. split.
    + intros [[b Hb]|(a & b & Hab)].
      * by exists EmptyString, b.
      * exists (String c a), b. by rewrite Hab.
    + intros (a & b & Hab). destruct a as [|x a].
      * left. by exists b.
      * right. injection Hab as _ Hab. by exists a, b.
Qed.

Lemma string_length_app a b :
  String.length (a +:+ b) = (String.length a + String.length b)%nat.
Proof. induction a as [|c a IH]; simpl; [reflexivity | by rewrite IH]. Qed.

(** ** Claims on the S3 storage provider *)

(** C7. The locator [upload_file] returns does not lead [get_file] back to
    the object written when the file name holds a double slash: for the
    file name ["a//b"] the upload succeeds and returns
    ["s3://bkt/uploads/a//b"], the split on ["//"], which has no limit on
    the splits, cuts that locator inside the file name, the key read back is
    ["uploads/a"] and not ["uploads/a//b"], and [get_file] on the returned
    locator raises instead of yielding the bytes uploaded. *)
Lemma upload_locator_double_slash_no_round_trip :
  let up := upload_file provider no_fault hello "a//b" empty_store in
  hello <> [] /\
  fst up = Return (hello, "s3://bkt/uploads/a//b") /\
  objects (snd up) !! ("bkt", object_key provider "a//b") = Some hello /\
  object_key provider "a//b" = "uploads/a//b" /\
  fst (parse_locator "s3://bkt/uploads/a//b" (snd up)) = Return ("bkt", "uploads/a") /\
  fst (get_file provider no_fault "s3://bkt/uploads/a//b" (snd up))
  = Raise (RuntimeError
             ("Error downloading file s3://bkt/uploads/a//b from S3: " +:+ str NoSuchKey)).
Proof.
  cbv zeta. split; [discriminate|]. vm_compute. repeat split; reflexivity.
Qed.

(** C8. [upload_file] raises [ValueError(EMPTY_CONTENT)] exactly when the
    content is empty, and then sends nothing. For a content that is not
    empty it sends one [put_object] for the key [prefix/filename] with the
    content as body: when the backend takes it, the object is stored and the
    call returns the content and the locator; when the backend raises, the
    call raises [RuntimeError] with the text of that exception and returns
    no result. *)
Theorem upload_file_outcomes self be file filename s :
  let up := upload_file self be file filename s in
  let write := PutObject (bucket_name self) (object_key self filename) file in
  (fst up = Raise (ValueError EMPTY_CONTENT) <-> file = []) /\
  (file = [] -> snd up = s) /\
  (file <> [] -> requests (snd up) = requests s ++ [write]) /\
  (file <> [] -> be write = None ->
     fst up = Return (file, locator self filename) /\
     objects (snd up)
     = <[(bucket_name self, object_key self filename) := file]> (objects s)) /\
  (forall e, file <> [] -> be write = Some e ->
     fst up = Raise (RuntimeError ("Error uploading file to S3: " +:+ str e)) /\
     objects (snd up) = objects s).
Proof.
  cbv zeta. unfold upload_file.
  destruct (decide (file = [])) as [->|Hne].
  - simpl. repeat split; try done.
  - rewrite bool_decide_eq_false_2 by exact Hne.
    unfold try_except, put_object, send, bind, get, put, ret, raise.
    destruct (be (PutObject (bucket_name self) (object_key self filename) file))
      as [e|] eqn:Hbe; simpl.
    + split; [split; [discriminate | done]|].
      split; [done|]. split; [done|]. split; [discriminate|].
      intros e' _ [= <-]. done.
    + split; [split; [discriminate | done]|].
      split; [done|]. split; [done|]. split; [done | discriminate].
Qed.

(** The three outcomes of C8 at concrete uploads. *)
Lemma upload_file_outcomes_witness :
  fst (upload_file provider no_fault [] "report.pdf" empty_store)
    = Raise (ValueError EMPTY_CONTENT) /\
  fst (upload_file provider no_fault hello "report.pdf" empty_store)
    = Return (hello, locator provider "report.pdf") /\
  fst (upload_file provider all_fault hello "report.pdf" empty_store)
    = Raise (RuntimeError ("Error uploading file to S3: " +:+ str denied)).
Proof.
  split; [|split].
  - apply (upload_file_outcomes provider no_fault [] "report.pdf" empty_store).
    reflexivity.
  - destruct (upload_file_outcomes provider no_fault hello "report.pdf" empty_store)
      as (_ & _ & _ & Hok & _).
    apply Hok; [discriminate | reflexivity].
  - destruct (upload_file_outcomes provider all_fault hello "report.pdf" empty_store)
      as (_ & _ & _ & _ & Hfail).
    apply (Hfail denied); [discriminate | reflexivity].
Defined.

(** C10. [delete_file] sends one [delete_object] for the configured bucket
    and the key that is its argument, as given: the locator is not parsed.
    The locator [upload_file] returns is never the key it wrote, so
    [delete_file] on that locator leaves the uploaded object where it is. *)
Theorem delete_file_key_is_its_argument self be name filename body s :
  let del := delete_file self be name s in
  requests (snd del) = requests s ++ [DeleteObject (bucket_name self) name] /\
  objects (snd del)
  = match be (DeleteObject (bucket_name self) name) with
    | None => delete (bucket_name self, name) (objects s)
    | Some _ => objects s
    end /\
  locator self filename <> object_key self filename /\
  (objects s !! (bucket_name self, object_key self filename) = Some body ->
   objects (snd (delete_file self be (locator self filename) s))
     !! (bucket_name self, object_key self filename) = Some body).
Proof.
  cbv zeta.
  assert (Hne : locator self filename <> object_key self filename).
  { intros Heq. apply (f_equal String.length) in Heq.
    unfold locator, object_key in Heq. cbn in Heq.
    rewrite !string_length_app in Heq. cbn in Heq. lia. }
  unfold delete_file, try_except, delete_object, send, bind, get, put, ret, raise.
  split; [|split; [|split]].
  - destruct (be (DeleteObject (bucket_name self) name)); reflexivity.
  - destruct (be (DeleteObject (bucket_name self) name)); reflexivity.
  - exact Hne.
  - intros Hobj.
    destruct (be (DeleteObject (bucket_name self) (locator self filename)));
      simpl; [exact Hobj|].
    rewrite lookup_delete_ne; [exact Hobj|]. intros [= Heq]. exact (Hne Heq).
Qed.

(** Uploading [hello] as ["report.pdf"] and deleting by the locator
    returned: the object is still there. *)
Lemma delete_file_key_is_its_argument_witness :
  let up := upload_file provider no_fault hello "report.pdf" empty_store in
  let del := delete_file provider no_fault (locator provider "report.pdf") (snd up) in
  fst up = Return (hello, locator provider "report.pdf") /\
  fst del = Return tt /\
  objects (snd del) !! ("bkt", "uploads/report.pdf") = Some hello.
Proof.
  cbv zeta. split; [vm_compute; reflexivity|]. split; [vm_compute; reflexivity|].
  apply (delete_file_key_is_its_argument provider no_fault "" "report.pdf" hello).
  vm_compute. reflexivity.
Defined.

(** * Further properties of the knowledge router *)

Ltac run_reads :=
  unfold get_knowledge_by_id, get_knowledge_items,
    Knowledges.get_knowledge_by_id, Knowledges.get_knowledge_items,
    Files.get_files_by_ids, bind, ret, raise, get, put, log;
  simpl.

(** The member list the reading route computes is [file_ids_of]. *)
Lemma read_file_ids k :
  (if truthy (k_data k) then dict_get (default ∅ (k_data k)) "file_ids" else [])
  = file_ids_of k.
Proof.
  unfold file_ids_of, or_empty. destruct (truthy (k_data k)); [reflexivity|].
  unfold dict_get. by rewrite lookup_empty.
Qed.

Lemma get_knowledge_by_id_run id w :
  get_knowledge_by_id id w
  = match knowledges w !! id with
    | Some k =>
        (Return (mkResponse k (omap (fun i => files w !! i) (file_ids_of k))),
         logged [Knowledges_get_knowledge_by_id id;
                 Files_get_files_by_ids (file_ids_of k)] w)
    | None =>
        (Raise (HTTPException 401 (Msg NOT_FOUND)),
         logged [Knowledges_get_knowledge_by_id id] w)
    end.
Proof.
  run_reads. destruct (knowledges w !! id) as [k|]; [|reflexivity].
  rewrite read_file_ids. tidy_calls. reflexivity.
Qed.

(** A call of [add_file_to_knowledge_by_id] that returns: what it returns
    and the world it leaves. *)
Lemma add_file_returns_eq env id fid w response w1 :
  add_file_to_knowledge_by_id env id (mkFileIdForm fid) w = (Return response, w1) ->
  exists f k,
    files w !! fid = Some f /\ knowledges w !! id = Some k /\
    (fid ∉ file_ids_of k) /\
    let ids := file_ids_of k ++ [fid] in
    response = mkResponse (with_file_ids ids k) (omap (fun i => files w !! i) ids) /\
    knowledges w1 = <[id := with_file_ids ids k]> (knowledges w) /\
    files w1 = files w /\ blobs w1 = blobs w /\
    vectors w1 = vectors w ++ entries_of env (mkProcessForm fid id).
Proof.
  destruct (files w !! fid) as [f|] eqn:Hf;
    [|rewrite add_file_absent by done; discriminate].
  destruct (truthy (f_data f)) eqn:Hd;
    [|rewrite (add_file_unprocessed _ _ _ _ f) by done; discriminate].
  destruct (process_file_error env fid id) as [e|] eqn:He;
    [rewrite (add_file_index_raises _ _ _ _ f e) by done; discriminate|].
  destruct (knowledges w !! id) as [k|] eqn:Hk;
    [|rewrite (add_file_no_collection _ _ _ _ f) by done; discriminate].
  destruct (decide (fid ∈ file_ids_of k)) as [Hin|Hin];
    [rewrite (add_file_duplicate _ _ _ _ f k) by done; discriminate|].
  rewrite (add_file_appends _ _ _ _ f k) by done.
  intros [= <- <-]. exists f, k. simpl. done.
Qed.

(** The same for [remove_file_from_knowledge_by_id]. *)
Lemma remove_file_returns_eq id fid w response w1 :
  remove_file_from_knowledge_by_id id (mkFileIdForm fid) w = (Return response, w1) ->
  exists f k,
    files w !! fid = Some f /\ knowledges w !! id = Some k /\
    fid ∈ file_ids_of k /\
    let ids := list_remove fid (file_ids_of k) in
    response = mkResponse (with_file_ids ids k)
                 (omap (fun i => delete fid (files w) !! i) ids) /\
    knowledges w1 = <[id := with_file_ids ids k]> (knowledges w) /\
    files w1 = delete fid (files w) /\
    blobs w1 = blobs w ∖ {[ f_path f ]} /\
    vectors w1
    = List.filter (fun e => negb (VECTOR_DB_CLIENT.tagged (k_id k) fid e)) (vectors w).
Proof.
  destruct (files w !! fid) as [f|] eqn:Hf;
    [|rewrite remove_file_absent by done; discriminate].
  destruct (knowledges w !! id) as [k|] eqn:Hk;
    [|rewrite (remove_file_no_collection _ _ _ f) by done; discriminate].
  destruct (decide (fid ∈ file_ids_of k)) as [Hin|Hin];
    [|rewrite (remove_file_not_member _ _ _ f k) by done; discriminate].
  rewrite (remove_file_member _ _ _ f k) by done.
  intros [= <- <-]. exists f, k. simpl. done.
Qed.

(** X1. What [add_file_to_knowledge_by_id] returns is what the reading
    route [get_knowledge_by_id] returns for the collection afterwards: the
    stored record with the file appended to its member list, and the
    records of the members. *)
Theorem add_file_then_get_knowledge_by_id env id fid w response w1 :
  add_file_to_knowledge_by_id env id (mkFileIdForm fid) w = (Return response, w1) ->
  fst (get_knowledge_by_id id w1) = Return response /\
  fid ∈ file_ids_of (r_knowledge response) /\
  (exists f, files w1 !! fid = Some f /\ f ∈ r_files response).
Proof.
  intros Hrun.
  apply add_file_returns_eq in Hrun as (f & k & Hf & Hk & Hin & Hr & Hk1 & Hf1 & _).
  cbv zeta in *. rewrite get_knowledge_by_id_run, Hk1, lookup_insert_eq. simpl.
  rewrite file_ids_of_with_file_ids, Hf1. subst response. simpl.
  rewrite file_ids_of_with_file_ids.
  split; [reflexivity|]. split.
  - apply elem_of_app. right. by apply list_elem_of_singleton.
  - exists f. split; [exact Hf|].
    apply list_elem_of_omap. exists fid. split; [|exact Hf].
    apply elem_of_app. right. by apply list_elem_of_singleton.
Qed.

Lemma add_file_then_get_knowledge_by_id_witness :
  let first := add_file_to_knowledge_by_id env_ok "K1" (mkFileIdForm "F1") w0 in
  exists response,
    fst first = Return response /\
    fst (get_knowledge_by_id "K1" (snd first)) = Return response /\
    "F1" ∈ file_ids_of (r_knowledge response).
Proof.
  cbv zeta.
  destruct (add_file_to_knowledge_by_id env_ok "K1" (mkFileIdForm "F1") w0)
    as [[response|e] w1] eqn:Hrun; [|vm_compute in Hrun; discriminate].
  destruct (add_file_then_get_knowledge_by_id env_ok "K1" "F1" w0 response w1 Hrun)
    as (Hget & Hin & _).
  exists response. split; [reflexivity|]. split; [exact Hget | exact Hin].
Defined.

Lemma list_remove_app_last x l : x ∉ l -> list_remove x (l ++ [x]) = l.
Proof.
  induction l as [|y l IH]; intros Hx; simpl.
  - by rewrite bool_decide_eq_true_2.
  - apply not_elem_of_cons in Hx as [Hne Hx].
    rewrite bool_decide_eq_false_2 by done. by rewrite IH.
Qed.

Lemma list_remove_other x y l : y ∈ l -> y <> x -> y ∈ list_remove x l.
Proof.
  induction l as [|z l IH]; simpl; [done|].
  intros Hy Hne. apply elem_of_cons in Hy as [->|Hy].
  - rewrite bool_decide_eq_false_2 by congruence. apply elem_of_cons. by left.
  - case_bool_decide; [done|]. apply elem_of_cons. right. auto.
Qed.

Lemma list_remove_length x l : x ∈ l -> S (length (list_remove x l)) = length l.
Proof.
  induction l as [|z l IH]; simpl; intros Hx.
  - by apply not_elem_of_nil in Hx.
  - case_bool_decide as Hz; [reflexivity|]. simpl. rewrite IH; [reflexivity|].
    apply elem_of_cons in Hx as [?|?]; [congruence | done].
Qed.

(** X2. When [remove_file_from_knowledge_by_id] returns, the reading route
    returns the same response afterwards; the member list returned is one
    shorter than the list stored before, every other member is kept, the
    file's record is gone, and if the list had no duplicate the file is no
    longer a member. *)
Theorem remove_file_then_get_knowledge_by_id id fid w response w1 :
  remove_file_from_knowledge_by_id id (mkFileIdForm fid) w = (Return response, w1) ->
  fst (get_knowledge_by_id id w1) = Return response /\
  files w1 !! fid = None /\
  exists k, knowledges w !! id = Some k /\
    S (length (file_ids_of (r_knowledge response))) = length (file_ids_of k) /\
    (forall x, x <> fid ->
       (x ∈ file_ids_of (r_knowledge response) <-> x ∈ file_ids_of k)) /\
    (NoDup (file_ids_of k) -> fid ∉ file_ids_of (r_knowledge response)).
Proof.
  intros Hrun.
  apply remove_file_returns_eq in Hrun
    as (f & k & Hf & Hk & Hin & Hr & Hk1 & Hf1 & _).
  cbv zeta in *. rewrite get_knowledge_by_id_run, Hk1, lookup_insert_eq. simpl.
  rewrite file_ids_of_with_file_ids, Hf1. subst response. simpl.
  rewrite file_ids_of_with_file_ids.
  split; [reflexivity|]. split; [apply lookup_delete_eq|].
  exists k. split; [exact Hk|]. split; [by apply list_remove_length|]. split.
  - intros x Hx. split; [apply list_remove_subseteq|].
    intros Hxin. by apply list_remove_other.
  - apply list_remove_not_elem.
Qed.

Lemma remove_file_then_get_knowledge_by_id_witness :
  let run := remove_file_from_knowledge_by_id "K2" (mkFileIdForm "F1") w0 in
  exists response,
    fst run = Return response /\
    fst (get_knowledge_by_id "K2" (snd run)) = Return response /\
    files (snd run) !! "F1" = None.
Proof.
  cbv zeta.
  destruct (remove_file_from_knowledge_by_id "K2" (mkFileIdForm "F1") w0)
    as [[response|e] w1] eqn:Hrun; [|vm_compute in Hrun; discriminate].
  destruct (remove_file_then_get_knowledge_by_id "K2" "F1" w0 response w1 Hrun)
    as (Hget & Hgone & _).
  exists response. split; [reflexivity|]. split; [exact Hget | exact Hgone].
Defined.

(** X3. [get_knowledge_by_id] returns exactly when the collection has a
    record, and fails with status 401 and detail [NOT_FOUND] otherwise (the
    mutating routes use status 400); it changes no store; and after
    [delete_knowledge_by_id] it fails for the deleted collection. *)
Theorem get_knowledge_by_id_outcomes id w :
  let run := get_knowledge_by_id id w in
  ((exists response, fst run = Return response) <-> is_Some (knowledges w !! id)) /\
  (knowledges w !! id = None -> fst run = Raise (HTTPException 401 (Msg NOT_FOUND))) /\
  (knowledges (snd run) = knowledges w /\ files (snd run) = files w /\
   blobs (snd run) = blobs w /\ vectors (snd run) = vectors w) /\
  fst (get_knowledge_by_id id (snd (delete_knowledge_by_id id w)))
  = Raise (HTTPException 401 (Msg NOT_FOUND)).
Proof.
  cbv zeta. rewrite !get_knowledge_by_id_run, delete_knowledge_run. simpl.
  rewrite lookup_delete_eq.
  destruct (knowledges w !! id) as [k|] eqn:Hk; simpl.
  - split; [split; eauto|]. split; [discriminate | done].
  - split; [split; [intros [? ?]; discriminate | intros [? ?]; discriminate]|].
    done.
Qed.

Lemma get_knowledge_by_id_outcomes_witness :
  fst (get_knowledge_by_id "K9" w0) = Raise (HTTPException 401 (Msg NOT_FOUND)).
Proof.
  destruct (get_knowledge_by_id_outcomes "K9" w0) as (_ & Hnone & _).
  apply Hnone. vm_compute. reflexivity.
Defined.

(** X4. [get_knowledge_items] treats the empty string as no [id]: with
    [None] or [""] it never fails and returns the stored records, each
    record once per identifier that holds it. With any other [id] it
    returns that record, or fails with status 401 and detail [NOT_FOUND]. *)
Theorem get_knowledge_items_outcomes id w :
  let run := get_knowledge_items id w in
  (id = None \/ id = Some EmptyString ->
     exists items, fst run = Return (inr items) /\
       length items = size (knowledges w) /\
       (forall k, k ∈ items <-> exists i, knowledges w !! i = Some k)) /\
  (forall i, id = Some i -> i <> EmptyString ->
     fst run = match knowledges w !! i with
               | Some k => Return (inl k)
               | None => Raise (HTTPException 401 (Msg NOT_FOUND))
               end) /\
  knowledges (snd run) = knowledges w.
Proof.
  cbv zeta. split; [|split].
  - intros Hid.
    assert (Hrun : get_knowledge_items id w
                   = (Return (inr ((map_to_list (knowledges w)).*2)), w)).
    { destruct Hid as [->| ->]; run_reads; by rewrite map_id. }
    rewrite Hrun. simpl. eexists. split; [reflexivity|]. split.
    + by rewrite length_fmap, length_map_to_list.
    + intros k. rewrite list_elem_of_fmap. split.
      * intros ([i k'] & -> & Hin). exists i. by apply elem_of_map_to_list.
      * intros [i Hi]. exists (i, k). split; [done|]. by apply elem_of_map_to_list.
  - intros i -> Hi. run_reads. rewrite bool_decide_eq_false_2 by done. simpl.
    destruct (knowledges w !! i); reflexivity.
  - destruct id as [i|]; run_reads; [|done].
    case_bool_decide; simpl; [done|]. destruct (knowledges w !! i); reflexivity.
Qed.

Lemma get_knowledge_items_outcomes_witness :
  (exists items, fst (get_knowledge_items (Some EmptyString) w0) = Return (inr items) /\
     length items = 2%nat) /\
  fst (get_knowledge_items (Some "K1") w0) = Return (inl K1) /\
  fst (get_knowledge_items (Some "K9") w0) = Raise (HTTPException 401 (Msg NOT_FOUND)).
Proof.
  destruct (get_knowledge_items_outcomes (Some EmptyString) w0) as (Hall & _ & _).
  destruct (Hall (or_intror eq_refl)) as (items & Hr & Hlen & _).
  destruct (get_knowledge_items_outcomes (Some "K1") w0) as (_ & H1 & _).
  destruct (get_knowledge_items_outcomes (Some "K9") w0) as (_ & H9 & _).
  split; [|split].
  - exists items. split; [exact Hr|]. rewrite Hlen. vm_compute. reflexivity.
  - rewrite (H1 "K1" eq_refl); [vm_compute; reflexivity | discriminate].
  - rewrite (H9 "K9" eq_refl); [vm_compute; reflexivity | discriminate].
Defined.

(** X5. Removing a file from one collection deletes the file's record while
    any other collection that lists the file keeps listing it: the other
    record is untouched, the reading route returns it with the file still in
    its member list, and the stale member cannot be removed afterwards,
    since [remove_file_from_knowledge_by_id] then fails with 400
    [NOT_FOUND] at the file check and leaves the list as it is. *)
Theorem remove_file_leaves_stale_member id id2 fid w f k k2 :
  id <> id2 ->
  files w !! fid = Some f ->
  knowledges w !! id = Some k -> knowledges w !! id2 = Some k2 ->
  fid ∈ file_ids_of k2 ->
  let w1 := snd (remove_file_from_knowledge_by_id id (mkFileIdForm fid) w) in
  let again := remove_file_from_knowledge_by_id id2 (mkFileIdForm fid) w1 in
  files w1 !! fid = None /\
  knowledges w1 !! id2 = Some k2 /\
  fst (get_knowledge_by_id id2 w1)
  = Return (mkResponse k2 (omap (fun i => delete fid (files w) !! i) (file_ids_of k2))) /\
  fst again = Raise not_found /\
  knowledges (snd again) !! id2 = Some k2.
Proof.
  intros Hne Hf Hk Hk2 Hin. cbv zeta.
  assert (Hw1 : files (snd (remove_file_from_knowledge_by_id id (mkFileIdForm fid) w))
                = delete fid (files w) /\
                knowledges (snd (remove_file_from_knowledge_by_id id (mkFileIdForm fid) w))
                  !! id2 = Some k2).
  { destruct (decide (fid ∈ file_ids_of k)) as [Hm|Hm].
    - rewrite (remove_file_member id fid w f k Hf Hk Hm). simpl.
      by rewrite lookup_insert_ne.
    - by rewrite (remove_file_not_member id fid w f k Hf Hk Hm). }
  destruct Hw1 as [Hfiles Hk2'].
  assert (Hgone : files (snd (remove_file_from_knowledge_by_id id (mkFileIdForm fid) w))
                  !! fid = None) by (rewrite Hfiles; apply lookup_delete_eq).
  split; [exact Hgone|]. split; [exact Hk2'|]. split.
  - rewrite get_knowledge_by_id_run, Hk2'. simpl. by rewrite Hfiles.
  - rewrite remove_file_absent by exact Hgone. simpl. done.
Qed.

(** [F1] is listed by [K2] and by a third collection [K3]; it is removed
    from [K2]. *)
Lemma remove_file_leaves_stale_member_witness :
  let K3 := mkKnowledge "K3" "admin" "drafts" "" (Some {[ "file_ids" := ["F1"] ]}) in
  let w := stored "K3" K3 w0 in
  let w1 := snd (remove_file_from_knowledge_by_id "K2" (mkFileIdForm "F1") w) in
  files w1 !! "F1" = None /\
  knowledges w1 !! "K3" = Some K3 /\
  fst (remove_file_from_knowledge_by_id "K3" (mkFileIdForm "F1") w1) = Raise not_found.
Proof.
  cbv zeta.
  destruct (remove_file_leaves_stale_member "K2" "K3" "F1"
              (stored "K3" (mkKnowledge "K3" "admin" "drafts" ""
                              (Some {[ "file_ids" := ["F1"] ]})) w0)
              F1 K2
              (mkKnowledge "K3" "admin" "drafts" "" (Some {[ "file_ids" := ["F1"] ]})))
    as (Hgone & Hk3 & _ & Hagain & _);
    try (vm_compute; reflexivity); [discriminate | by_compute |].
  split; [exact Hgone|]. split; [exact Hk3 | exact Hagain].
Defined.

(** X6. Adding a file and then removing it gives the collection its member
    list back, deletes the file's record, and, when the record is stored
    under its own identifier (the remove route addresses the index by
    [knowledge.id], the add route by the identifier of the request), leaves
    no vector entry of the file in the collection. *)
Theorem add_then_remove_restores_member_list env id fid w response w1 :
  add_file_to_knowledge_by_id env id (mkFileIdForm fid) w = (Return response, w1) ->
  let undo := remove_file_from_knowledge_by_id id (mkFileIdForm fid) w1 in
  exists k response2,
    knowledges w !! id = Some k /\
    fst undo = Return response2 /\
    file_ids_of (r_knowledge response2) = file_ids_of k /\
    (forall k2, knowledges (snd undo) !! id = Some k2 -> file_ids_of k2 = file_ids_of k) /\
    files (snd undo) !! fid = None /\
    (k_id k = id ->
     Forall (fun e => ~ (ve_collection e = id /\ ve_file_id e = fid))
       (vectors (snd undo))).
Proof.
  intros Hrun. cbv zeta.
  apply add_file_returns_eq in Hrun
    as (f & k & Hf & Hk & Hin & _ & Hk1 & Hf1 & _ & _).
  cbv zeta in *.
  set (k1 := with_file_ids (file_ids_of k ++ [fid]) k) in *.
  assert (Hk1' : knowledges w1 !! id = Some k1) by (rewrite Hk1; apply lookup_insert_eq).
  assert (Hids : file_ids_of k1 = file_ids_of k ++ [fid])
    by apply file_ids_of_with_file_ids.
  assert (Hm : fid ∈ file_ids_of k1).
  { rewrite Hids. apply elem_of_app. right. by apply list_elem_of_singleton. }
  assert (Hf' : files w1 !! fid = Some f) by (by rewrite Hf1).
  rewrite (remove_file_member id fid w1 f k1 Hf' Hk1' Hm). simpl.
  rewrite Hids, list_remove_app_last by exact Hin.
  exists k. eexists. split; [exact Hk|]. split; [reflexivity|]. simpl.
  split; [apply file_ids_of_with_file_ids|]. split.
  - intros k2. rewrite lookup_insert_eq. intros [= <-].
    apply file_ids_of_with_file_ids.
  - split; [apply lookup_delete_eq|].
    intros Hid. apply Forall_forall. intros e He [H1 H2].
    apply list_elem_of_In, filter_In in He as [_ He].
    unfold VECTOR_DB_CLIENT.tagged in He. change (k_id k1) with (k_id k) in He.
    rewrite Hid in He. rewrite !bool_decide_eq_true_2 in He by done. discriminate.
Qed.

Lemma add_then_remove_restores_member_list_witness :
  let first := add_file_to_knowledge_by_id env_ok "K1" (mkFileIdForm "F1") w0 in
  let undo := remove_file_from_knowledge_by_id "K1" (mkFileIdForm "F1") (snd first) in
  exists response2,
    fst undo = Return response2 /\
    file_ids_of (r_knowledge response2) = file_ids_of K1 /\
    files (snd undo) !! "F1" = None.
Proof.
  cbv zeta.
  destruct (add_file_to_knowledge_by_id env_ok "K1" (mkFileIdForm "F1") w0)
    as [[response|e] w1] eqn:Hrun; [|vm_compute in Hrun; discriminate].
  destruct (add_then_remove_restores_member_list env_ok "K1" "F1" w0 response w1 Hrun)
    as (k & response2 & Hk & Hundo & Hids & _ & Hgone & _).
  assert (HK1 : knowledges w0 !! "K1" = Some K1) by (vm_compute; reflexivity).
  assert (k = K1) as -> by congruence.
  exists response2. split; [exact Hundo|]. split; [exact Hids | exact Hgone].
Defined.

(** X7. The mutating routes called for one collection leave the record of
    every other collection as it is. *)
Theorem routes_leave_other_collections env id id' fid w :
  id <> id' ->
  knowledges (snd (add_file_to_knowledge_by_id env id (mkFileIdForm fid) w)) !! id'
  = knowledges w !! id' /\
  knowledges (snd (remove_file_from_knowledge_by_id id (mkFileIdForm fid) w)) !! id'
  = knowledges w !! id' /\
  knowledges (snd (delete_knowledge_by_id id w)) !! id' = knowledges w !! id'.
Proof.
  intros Hne. split; [|split].
  - destruct (add_file_knowledges env id fid w) as [->|(k & _ & _ & ->)];
      [reflexivity | by rewrite lookup_insert_ne].
  - destruct (remove_file_knowledges id fid w) as [->|(k & _ & _ & ->)];
      [reflexivity | by rewrite lookup_insert_ne].
  - rewrite delete_knowledge_run. simpl. by rewrite lookup_delete_ne.
Qed.

Lemma routes_leave_other_collections_witness :
  knowledges (snd (add_file_to_knowledge_by_id env_ok "K1" (mkFileIdForm "F1") w0)) !! "K2"
  = Some K2 /\
  knowledges (snd (remove_file_from_knowledge_by_id "K2" (mkFileIdForm "F1") w0)) !! "K1"
  = Some K1 /\
  knowledges (snd (delete_knowledge_by_id "K1" w0)) !! "K2" = Some K2.
Proof.
  destruct (routes_leave_other_collections env_ok "K1" "K2" "F1" w0) as (Ha & _ & Hd);
    [discriminate|].
  destruct (routes_leave_other_collections env_ok "K2" "K1" "F1" w0) as (_ & Hr & _);
    [discriminate|].
  rewrite Ha, Hr, Hd. vm_compute. repeat split; reflexivity.
Defined.

(** X8. [add_file_to_knowledge_by_id] deletes nothing, whatever its
    outcome: the file table and the blobs are as before, no collection
    record appears or disappears, and the vector index is the index before
    followed by entries that all belong to the collection and the file of
    the request. *)
Theorem add_file_never_deletes env id fid w :
  let run := add_file_to_knowledge_by_id env id (mkFileIdForm fid) w in
  files (snd run) = files w /\
  blobs (snd run) = blobs w /\
  dom (knowledges (snd run)) = dom (knowledges w) /\
  exists new, vectors (snd run) = vectors w ++ new /\
    Forall (fun e => ve_collection e = id /\ ve_file_id e = fid) new.
Proof.
  cbv zeta.
  assert (Hnew : Forall (fun e => ve_collection e = id /\ ve_file_id e = fid)
                   (entries_of env (mkProcessForm fid id))).
  { apply Forall_forall. intros e He.
    exact (entries_of_tagged env (mkProcessForm fid id) e He). }
  assert (Hnil : forall l : list VectorEntry, l = l ++ [])
    by (intros l; by rewrite app_nil_r).
  destruct (files w !! fid) as [f|] eqn:Hf;
    [|rewrite add_file_absent by done; simpl; eauto 10].
  destruct (truthy (f_data f)) eqn:Hd;
    [|rewrite (add_file_unprocessed _ _ _ _ f) by done; simpl; eauto 10].
  destruct (process_file_error env fid id) as [e|] eqn:He;
    [rewrite (add_file_index_raises _ _ _ _ f e) by done; simpl; eauto 10|].
  destruct (knowledges w !! id) as [k|] eqn:Hk;
    [|rewrite (add_file_no_collection _ _ _ _ f) by done; simpl; eauto 10].
  destruct (decide (fid ∈ file_ids_of k)) as [Hin|Hin].
  - rewrite (add_file_duplicate _ _ _ _ f k) by done. simpl. eauto 10.
  - rewrite (add_file_appends _ _ _ _ f k) by done. simpl.
    split; [done|]. split; [done|]. split; [|eauto].
    apply dom_insert_lookup_L. by rewrite Hk.
Qed.

(** X9. [remove_file_from_knowledge_by_id] deletes nothing but what belongs
    to the file of the request, whatever its outcome: the records of other
    files stay, the vector entries of other files stay, no vector entry and
    no collection record is added, and no collection record disappears. *)
Theorem remove_file_deletes_only_that_file id fid w :
  let run := remove_file_from_knowledge_by_id id (mkFileIdForm fid) w in
  (forall fid', fid' <> fid -> files (snd run) !! fid' = files w !! fid') /\
  (forall e, e ∈ vectors w -> ve_file_id e <> fid -> e ∈ vectors (snd run)) /\
  (forall e, e ∈ vectors (snd run) -> e ∈ vectors w) /\
  dom (knowledges (snd run)) = dom (knowledges w).
Proof.
  cbv zeta.
  assert (Hkeep : forall c e, e ∈ vectors w -> ve_file_id e <> fid ->
    e ∈ List.filter (fun e => negb (VECTOR_DB_CLIENT.tagged c fid e)) (vectors w)).
  { intros c e He Hne. apply list_elem_of_In, filter_In.
    split; [by apply list_elem_of_In|]. unfold VECTOR_DB_CLIENT.tagged.
    rewrite (bool_decide_eq_false_2 (ve_file_id e = fid)) by done.
    by rewrite andb_false_r. }
  assert (Hsub : forall c e,
    e ∈ List.filter (fun e => negb (VECTOR_DB_CLIENT.tagged c fid e)) (vectors w) ->
    e ∈ vectors w).
  { intros c e He. apply list_elem_of_In, filter_In in He as [He _].
    by apply list_elem_of_In. }
  destruct (files w !! fid) as [f|] eqn:Hf;
    [|rewrite remove_file_absent by done; simpl; done].
  destruct (knowledges w !! id) as [k|] eqn:Hk;
    [|rewrite (remove_file_no_collection _ _ _ f) by done; simpl; done].
  destruct (decide (fid ∈ file_ids_of k)) as [Hin|Hin].
  - rewrite (remove_file_member _ _ _ f k) by done. simpl.
    split; [intros fid' Hne; by rewrite lookup_delete_ne|].
    split; [apply Hkeep|]. split; [apply Hsub|].
    apply dom_insert_lookup_L. by rewrite Hk.
  - rewrite (remove_file_not_member _ _ _ f k) by done. simpl.
    split; [intros fid' Hne; by rewrite lookup_delete_ne|].
    split; [apply Hkeep|]. split; [apply Hsub | done].
Qed.

Lemma remove_file_deletes_only_that_file_witness :
  let run := remove_file_from_knowledge_by_id "K2" (mkFileIdForm "F1") w0 in
  files (snd run) !! "F2" = Some F2.
Proof.
  destruct (remove_file_deletes_only_that_file "K2" "F1" w0) as (Hfiles & _).
  cbv zeta. rewrite (Hfiles "F2") by discriminate. vm_compute. reflexivity.
Defined.

(** * Further properties of the S3 storage provider *)

Lemma prefix_empty s : String.prefix EmptyString s = true.
Proof. by destruct s. Qed.

Lemma string_app_assoc a b c : (a +:+ b) +:+ c = a +:+ b +:+ c.
Proof.
  induction a as [|x a IH]; [reflexivity|].
  change (String x ((a +:+ b) +:+ c) = String x (a +:+ b +:+ c)). by f_equal.
Qed.

Lemma string_app_inj a b c : a +:+ b = a +:+ c -> b = c.
Proof.
  induction a as [|x a IH]; [done|].
  change (String x (a +:+ b) = String x (a +:+ c) -> b = c). intros [= H]. auto.
Qed.

Lemma string_drop_app a b : string_drop (String.length a) (a +:+ b) = b.
Proof.
  induction a as [|x a IH]; [by destruct b|].
  change (string_drop (String.length a) (a +:+ b) = b). exact IH.
Qed.

Lemma prefix_cons c sep x s :
  String.prefix (String c sep) (String x s)
  = if ascii_dec c x then String.prefix sep s else false.
Proof. reflexivity. Qed.

Lemma prefix_cons' c sep : String.prefix (String c sep) EmptyString = false.
Proof. reflexivity. Qed.

(** Partition at the first ["//"]: the text before it has none, also when a
    slash follows it. *)
Lemma partition_double_slash a b :
  occurs "//" (a +:+ "/") = false -> partition "//" (a +:+ "//" +:+ b) = Some (a, b).
Proof.
  induction a as [|x a IH]; intros H.
  - simpl. by rewrite prefix_empty.
  - change (String x a +:+ "/") with (String x (a +:+ "/")) in H.
    apply occurs_false_inv in H as [Hp Ho].
    change (String x a +:+ "//" +:+ b) with (String x (a +:+ "//" +:+ b)).
    cbn [partition].
    assert (Hp' : String.prefix "//" (String x (a +:+ "//" +:+ b)) = false).
    { rewrite prefix_cons in Hp |- *.
      destruct (ascii_dec "/" x) as [_|_]; [|reflexivity].
      destruct a as [|y a].
      - change (EmptyString +:+ "/") with (String "/" EmptyString) in Hp.
        rewrite prefix_cons in Hp. destruct (ascii_dec "/" "/"); [|congruence].
        by rewrite prefix_empty in Hp.
      - change (String y a +:+ "/") with (String y (a +:+ "/")) in Hp.
        change (String y a +:+ "//" +:+ b) with (String y (a +:+ "//" +:+ b)).
        rewrite prefix_cons in Hp |- *.
        destruct (ascii_dec "/" y); [|reflexivity]. by rewrite prefix_empty in Hp. }
    rewrite Hp', (IH Ho). reflexivity.
Qed.

Lemma split_double_slash a rest :
  occurs "//" (a +:+ "/") = false -> occurs "//" rest = false ->
  split "//" (a +:+ "//" +:+ rest) = [a; rest].
Proof.
  intros Ha Hrest. unfold split.
  rewrite string_length_app. change (String.length ("//" +:+ rest))
    with (S (S (String.length rest))).
  rewrite Nat.add_succ_r. cbn [splitn].
  rewrite (partition_double_slash _ _ Ha).
  rewrite splitn_none by (apply partition_none; exact Hrest). reflexivity.
Qed.

Lemma split_no_double_slash p : occurs "//" p = false -> split "//" p = [p].
Proof. intros H. apply splitn_none, partition_none, H. Qed.

(** X10. A locator without ["//"] is refused by [get_file] and by
    [as_local_file] before the backend is contacted: both raise
    [RuntimeError] carrying the [IndexError] of the failed parse, no request
    is sent, and the store and the local cache are as before. *)
Theorem malformed_locator_is_refused_offline self be os file_path s :
  occurs "//" file_path = false ->
  let failure := RuntimeError ("Error downloading file " +:+ file_path +:+
                               " from S3: list index out of range") in
  get_file self be file_path s = (Raise failure, s) /\
  as_local_file self be os file_path s = (Raise failure, s).
Proof.
  intros H. cbv zeta.
  unfold get_file, as_local_file, try_except, bind, parse_locator.
  rewrite (split_no_double_slash _ H). simpl. done.
Qed.

Lemma malformed_locator_is_refused_offline_witness :
  exists msg,
    get_file provider no_fault "uploads/report.pdf" empty_store
    = (Raise (RuntimeError msg), empty_store).
Proof.
  eexists.
  apply (malformed_locator_is_refused_offline provider no_fault os_ok "uploads/report.pdf").
  vm_compute. reflexivity.
Defined.

(** X11. [get_file] reads the bucket and the key named in the locator, not
    the configured bucket, and accepts any text before the first ["//"] as
    scheme: for a locator [scheme//bucket/key] whose parts keep the two
    splits apart, the result is the object stored under that bucket and
    key, or [RuntimeError] carrying [NoSuchKey] when there is none, whatever
    provider is asked. *)
Theorem get_file_reads_the_bucket_of_the_locator self be scheme Bucket Key s :
  occurs "//" (scheme +:+ "/") = false ->
  occurs "/" Bucket = false ->
  occurs "//" (Bucket +:+ "/" +:+ Key) = false ->
  be (GetObject Bucket Key) = None ->
  let file_path := scheme +:+ "//" +:+ Bucket +:+ "/" +:+ Key in
  fst (get_file self be file_path s)
  = match objects s !! (Bucket, Key) with
    | Some body => Return body
    | None => Raise (RuntimeError ("Error downloading file " +:+ file_path +:+
                                   " from S3: " +:+ str NoSuchKey))
    end.
Proof.
  intros Hs Hb Hk Hget. cbv zeta.
  unfold get_file, try_except, bind, parse_locator.
  rewrite (split_double_slash _ _ Hs Hk). cbn [lookup list_lookup].
  change (Bucket +:+ "/" +:+ Key) with (Bucket +:+ String "/" Key).
  cbn [splitn]. rewrite (partition_char _ _ _ Hb).
  unfold ret, get_object, send, bind, get, raise. rewrite Hget. simpl.
  destruct (objects s !! (Bucket, Key)); reflexivity.
Qed.

(** A provider configured for the bucket ["bkt"] asked for an object of the
    bucket ["other"] through an ["http:"] locator. *)
Lemma get_file_reads_the_bucket_of_the_locator_witness :
  let s := mkStore {[ ("other", "secret.txt") := hello ]} ∅ [] in
  fst (get_file provider no_fault "http://other/secret.txt" s) = Return hello.
Proof.
  cbv zeta.
  rewrite (get_file_reads_the_bucket_of_the_locator provider no_fault
             "http:" "other" "secret.txt"); vm_compute; reflexivity.
Defined.

Lemma object_key_inj self f1 f2 : object_key self f1 = object_key self f2 -> f1 = f2.
Proof.
  unfold object_key. intros H. apply string_app_inj in H.
  by apply (string_app_inj "/") in H.
Qed.

(** What a successful [upload_file] leaves. *)
Lemma upload_file_run self be file filename s :
  file <> [] ->
  be (PutObject (bucket_name self) (object_key self filename) file) = None ->
  upload_file self be file filename s
  = (Return (file, locator self filename),
     {| objects := <[(bucket_name self, object_key self filename) := file]> (objects s);
        local_files := local_files s;
        requests := requests s ++ [PutObject (bucket_name self)
                                     (object_key self filename) file] |}).
Proof.
  intros Hne Hput. unfold upload_file. rewrite bool_decide_eq_false_2 by exact Hne.
  unfold try_except, put_object, send, bind, get, put, ret. rewrite Hput. reflexivity.
Qed.

(** X12. [upload_file] never refuses a name that is taken: a second upload
    under the same file name returns like the first, with the same locator,
    and replaces the object, while an upload under another file name leaves
    the first object as it is. *)
Theorem upload_file_last_write_wins self be file1 file2 name1 name2 s :
  file1 <> [] -> file2 <> [] ->
  (forall body, be (PutObject (bucket_name self) (object_key self name1) body) = None) ->
  (forall body, be (PutObject (bucket_name self) (object_key self name2) body) = None) ->
  let first := upload_file self be file1 name1 s in
  let second := upload_file self be file2 name2 (snd first) in
  fst first = Return (file1, locator self name1) /\
  fst second = Return (file2, locator self name2) /\
  objects (snd second) !! (bucket_name self, object_key self name2) = Some file2 /\
  (name1 = name2 -> locator self name1 = locator self name2 /\
     objects (snd second) !! (bucket_name self, object_key self name1) = Some file2) /\
  (name1 <> name2 ->
     objects (snd second) !! (bucket_name self, object_key self name1) = Some file1).
Proof.
  intros H1 H2 Hput1 Hput2. cbv zeta.
  rewrite (upload_file_run self be file1 name1 s H1 (Hput1 file1)). simpl.
  rewrite (upload_file_run _ be file2 name2 _ H2 (Hput2 file2)). simpl.
  split; [reflexivity|]. split; [reflexivity|].
  split; [apply lookup_insert_eq|]. split.
  - intros ->. split; [reflexivity | apply lookup_insert_eq].
  - intros Hne. rewrite lookup_insert_ne; [apply lookup_insert_eq|].
    intros [= Heq]. apply object_key_inj in Heq. congruence.
Qed.

Lemma upload_file_last_write_wins_witness :
  let first := upload_file provider no_fault hello "report.pdf" empty_store in
  let again := upload_file provider no_fault [Byte.x21] "report.pdf" (snd first) in
  let other := upload_file provider no_fault [Byte.x21] "notes.txt" (snd first) in
  objects (snd again) !! ("bkt", "uploads/report.pdf") = Some [Byte.x21] /\
  objects (snd other) !! ("bkt", "uploads/report.pdf") = Some hello.
Proof.
  cbv zeta. split.
  - destruct (upload_file_last_write_wins provider no_fault hello [Byte.x21]
                "report.pdf" "report.pdf" empty_store
                ltac:(discriminate) ltac:(discriminate)
                (fun _ => eq_refl) (fun _ => eq_refl))
      as (_ & _ & _ & Hsame & _).
    exact (proj2 (Hsame eq_refl)).
  - destruct (upload_file_last_write_wins provider no_fault hello [Byte.x21]
                "report.pdf" "notes.txt" empty_store
                ltac:(discriminate) ltac:(discriminate)
                (fun _ => eq_refl) (fun _ => eq_refl))
      as (_ & _ & _ & _ & Hother).
    apply Hother. discriminate.
Defined.

(** X13. [delete_file] called with the key [prefix/filename] that
    [upload_file] wrote, not with the locator it returned, does delete the
    object: [get_file] on the locator then fails with [RuntimeError]
    carrying [NoSuchKey]. *)
Theorem upload_delete_by_key_then_get_file_fails self be file filename s :
  file <> [] ->
  occurs "/" (bucket_name self) = false ->
  occurs "//" (bucket_name self +:+ "/" +:+ object_key self filename) = false ->
  be (PutObject (bucket_name self) (object_key self filename) file) = None ->
  be (DeleteObject (bucket_name self) (object_key self filename)) = None ->
  be (GetObject (bucket_name self) (object_key self filename)) = None ->
  let up := upload_file self be file filename s in
  let del := delete_file self be (object_key self filename) (snd up) in
  fst del = Return tt /\
  objects (snd del) !! (bucket_name self, object_key self filename) = None /\
  fst (get_file self be (locator self filename) (snd del))
  = Raise (RuntimeError ("Error downloading file " +:+ locator self filename +:+
                         " from S3: " +:+ str NoSuchKey)).
Proof.
  intros Hne Hb Hk Hput Hdel Hget. cbv zeta.
  rewrite (upload_file_run self be file filename s Hne Hput). simpl.
  unfold delete_file, try_except, delete_object, send, bind, get, put, ret.
  rewrite Hdel. simpl. split; [reflexivity|].
  split; [apply lookup_delete_eq|].
  unfold get_file, try_except, bind. rewrite parse_locator_locator by done.
  unfold get_object, send, bind, get, ret, raise. rewrite Hget. simpl.
  rewrite lookup_delete_eq. reflexivity.
Qed.

Lemma upload_delete_by_key_then_get_file_fails_witness :
  let up := upload_file provider no_fault hello "report.pdf" empty_store in
  let del := delete_file provider no_fault "uploads/report.pdf" (snd up) in
  exists msg,
    fst (get_file provider no_fault "s3://bkt/uploads/report.pdf" (snd del))
    = Raise (RuntimeError msg).
Proof.
  cbv zeta. eexists.
  apply (upload_delete_by_key_then_get_file_fails provider no_fault hello
           "report.pdf" empty_store); try (vm_compute; reflexivity).
  discriminate.
Defined.

(** ** [delete_all_files] *)

Lemma elem_of_keys_with_prefix s Bucket Prefix k :
  k ∈ keys_with_prefix s Bucket Prefix
  <-> is_Some (objects s !! (Bucket, k)) /\ String.prefix Prefix k = true.
Proof.
  unfold keys_with_prefix. rewrite list_elem_of_omap. split.
  - intros ([[b k0] v] & Hin & Hf). apply elem_of_map_to_list in Hin.
    destruct (bool_decide (b = Bucket)) eqn:Hb; simpl in Hf; [|discriminate].
    destruct (String.prefix Prefix k0) eqn:Hp; [|discriminate].
    injection Hf as ->. apply bool_decide_eq_true in Hb as ->. eauto.
  - intros [[v Hv] Hp]. exists ((Bucket, k), v). split.
    + by apply elem_of_map_to_list.
    + rewrite bool_decide_eq_true_2 by done. simpl. by rewrite Hp.
Qed.

Lemma lookup_foldl_delete_None (Bucket : string) (keys : list string)
    (m : gmap (string * string) bytes) x :
  m !! x = None ->
  foldl (fun m k => delete (Bucket, k) m) m keys !! x = None.
Proof.
  revert m. induction keys as [|k keys IH]; intros m Hm; simpl; [done|].
  apply IH. rewrite lookup_delete. by case_decide.
Qed.

Lemma lookup_foldl_delete_elem (Bucket : string) (keys : list string)
    (m : gmap (string * string) bytes) k :
  k ∈ keys ->
  foldl (fun m k => delete (Bucket, k) m) m keys !! (Bucket, k) = None.
Proof.
  revert m. induction keys as [|k' keys IH]; intros m Hk; simpl.
  - by apply not_elem_of_nil in Hk.
  - destruct (decide (k = k')) as [->|Hne].
    + apply lookup_foldl_delete_None, lookup_delete_eq.
    + apply IH. apply elem_of_cons in Hk as [?|?]; done.
Qed.

Lemma lookup_foldl_delete_other (Bucket : string) (keys : list string)
    (m : gmap (string * string) bytes) b k :
  ~ (b = Bucket /\ k ∈ keys) ->
  foldl (fun m k => delete (Bucket, k) m) m keys !! (b, k) = m !! (b, k).
Proof.
  revert m. induction keys as [|k' keys IH]; intros m Hk; simpl; [done|].
  rewrite IH.
  - apply lookup_delete_ne. intros [= -> ->]. apply Hk. split; [done|].
    apply elem_of_cons. by left.
  - intros [-> Hin]. apply Hk. split; [done|]. apply elem_of_cons. by right.
Qed.

(** The loop of [delete_all_files] when no deletion raises. *)
Lemma for_each_delete_object_run be (Bucket : string) (keys : list string) s :
  (forall k, k ∈ keys -> be (DeleteObject Bucket k) = None) ->
  for_each (fun key => delete_object be Bucket key) keys s
  = (Return tt,
     {| objects := foldl (fun m k => delete (Bucket, k) m) (objects s) keys;
        local_files := local_files s;
        requests := requests s ++ (DeleteObject Bucket <$> keys) |}).
Proof.
  revert s. induction keys as [|k keys IH]; intros s Hbe.
  - simpl. unfold ret. rewrite app_nil_r. by destruct s.
  - cbn [for_each]. unfold bind at 1, delete_object, send, bind, get, put, ret.
    rewrite Hbe by (apply elem_of_cons; by left). simpl.
    rewrite IH by (intros k' Hk'; apply Hbe, elem_of_cons; by right). simpl.
    by rewrite <- app_assoc.
Qed.

(** X14. When the backend raises for no request and lists every key that
    matches in one page, [delete_all_files] returns and deletes exactly the
    objects of the configured bucket whose key starts with the configured
    prefix, as a string: every other object and the local cache are as
    before. So no object [upload_file] wrote under this configuration
    survives, whatever its file name. *)
Theorem delete_all_files_deletes_the_prefix self be MaxKeys s :
  be (ListObjectsV2 (bucket_name self) (bucket_prefix self)) = None ->
  (forall k, be (DeleteObject (bucket_name self) k) = None) ->
  (length (keys_with_prefix s (bucket_name self) (bucket_prefix self)) <= MaxKeys)%nat ->
  let run := delete_all_files self be MaxKeys s in
  fst run = Return tt /\
  (forall b k,
     objects (snd run) !! (b, k)
     = if bool_decide (b = bucket_name self) && String.prefix (bucket_prefix self) k
       then None else objects s !! (b, k)) /\
  local_files (snd run) = local_files s /\
  (forall filename,
     objects (snd run) !! (bucket_name self, object_key self filename) = None).
Proof.
  intros Hlist Hdel Hpage. cbv zeta.
  set (B := bucket_name self) in *. set (P := bucket_prefix self) in *.
  assert (Hrun : exists keys,
    (forall k, k ∈ keys <-> is_Some (objects s !! (B, k)) /\ String.prefix P k = true) /\
    delete_all_files self be MaxKeys s
    = (Return tt,
       {| objects := foldl (fun m k => delete (B, k) m) (objects s) keys;
          local_files := local_files s;
          requests := (requests s ++ [ListObjectsV2 B P]) ++ (DeleteObject B <$> keys) |})).
  { exists (keys_with_prefix s B P). split; [apply elem_of_keys_with_prefix|].
    unfold delete_all_files, try_except, list_objects_v2, send, bind at 1 2 3, get.
    fold B P. rewrite Hlist. cbn [objects local_files requests].
    change (keys_with_prefix _ B P) with (keys_with_prefix s B P).
    rewrite take_ge by exact Hpage.
    destruct (keys_with_prefix s B P) as [|k keys] eqn:Hkeys.
    - unfold ret. simpl. by rewrite app_nil_r.
    - unfold ret at 1. cbn iota beta.
      rewrite for_each_delete_object_run by (intros; apply Hdel). reflexivity. }
  destruct Hrun as (keys & Hkeys & ->). simpl.
  assert (Hobj : forall b k,
    foldl (fun m k => delete (B, k) m) (objects s) keys !! (b, k)
    = if bool_decide (b = B) && String.prefix P k then None else objects s !! (b, k)).
  { intros b k. destruct (decide (b = B /\ k ∈ keys)) as [[-> Hin]|Hout].
    - rewrite lookup_foldl_delete_elem by done.
      apply Hkeys in Hin as [_ ->]. by rewrite bool_decide_eq_true_2.
    - rewrite lookup_foldl_delete_other by done.
      case_bool_decide as Hb; simpl; [|reflexivity].
      destruct (String.prefix P k) eqn:Hp; [|reflexivity].
      destruct (objects s !! (b, k)) as [v|] eqn:Hv; [|reflexivity].
      exfalso. apply Hout. split; [done|]. apply Hkeys. subst b. eauto. }
  split; [reflexivity|]. split; [exact Hobj|]. split; [reflexivity|].
  intros filename. rewrite Hobj, bool_decide_eq_true_2 by done.
  assert (Hp : String.prefix P (object_key self filename) = true).
  { apply prefix_app. by exists ("/" +:+ filename). }
  by rewrite Hp.
Qed.

(** Two uploads, then [delete_all_files]; an object of another prefix is
    kept. *)
Lemma delete_all_files_deletes_the_prefix_witness :
  let s := mkStore {[ ("bkt", "uploads/a.txt") := hello;
                      ("bkt", "uploads/b.txt") := hello;
                      ("bkt", "archive/c.txt") := hello ]} ∅ [] in
  let run := delete_all_files provider no_fault 1000 s in
  fst run = Return tt /\
  objects (snd run) !! ("bkt", "uploads/a.txt") = None /\
  objects (snd run) !! ("bkt", "archive/c.txt") = Some hello.
Proof.
  cbv zeta.
  destruct (delete_all_files_deletes_the_prefix provider no_fault 1000
              (mkStore {[ ("bkt", "uploads/a.txt") := hello;
                          ("bkt", "uploads/b.txt") := hello;
                          ("bkt", "archive/c.txt") := hello ]} ∅ []))
    as (Hr & Hobj & _ & _).
  - reflexivity.
  - reflexivity.
  - vm_compute. lia.
  - split; [exact Hr|]. rewrite !Hobj. vm_compute. split; reflexivity.
Defined.

(** [delete_all_files] when the backend raises for no request. *)
Lemma delete_all_files_run self be MaxKeys s :
  be (ListObjectsV2 (bucket_name self) (bucket_prefix self)) = None ->
  (forall k, be (DeleteObject (bucket_name self) k) = None) ->
  let listed := take MaxKeys (keys_with_prefix s (bucket_name self) (bucket_prefix self)) in
  delete_all_files self be MaxKeys s
  = (Return tt,
     {| objects := foldl (fun m k => delete (bucket_name self, k) m) (objects s) listed;
        local_files := local_files s;
        requests := (requests s ++ [ListObjectsV2 (bucket_name self) (bucket_prefix self)])
                    ++ (DeleteObject (bucket_name self) <$> listed) |}).
Proof.
  intros Hlist Hdel. cbv zeta.
  unfold delete_all_files, try_except, list_objects_v2, send, bind at 1 2 3, get.
  rewrite Hlist. cbn [objects local_files requests].
  change (keys_with_prefix _ (bucket_name self) (bucket_prefix self))
    with (keys_with_prefix s (bucket_name self) (bucket_prefix self)).
  destruct (take MaxKeys (keys_with_prefix s (bucket_name self) (bucket_prefix self)))
    as [|k keys] eqn:Hkeys.
  - unfold ret. simpl. by rewrite app_nil_r.
  - unfold ret at 1. cbn iota beta.
    rewrite for_each_delete_object_run by (intros; apply Hdel). reflexivity.
Qed.

Lemma NoDup_omap_inj {A B} (f : A -> option B) (l : list A) :
  NoDup l ->
  (forall x y z, x ∈ l -> y ∈ l -> f x = Some z -> f y = Some z -> x = y) ->
  NoDup (omap f l).
Proof.
  induction 1 as [|x l Hx Hl IH]; intros Hinj; [constructor|].
  assert (IH' : NoDup (omap f l)).
  { apply IH. intros a b z Ha Hb. apply Hinj; apply elem_of_cons; by right. }
  cbn [omap list_omap]. destruct (f x) as [z|] eqn:Hfx; [|exact IH'].
  constructor; [|exact IH'].
  intros Hz. apply list_elem_of_omap in Hz as (y & Hy & Hfy).
  assert (x = y) as ->; [|done].
  apply (Hinj x y z); [apply elem_of_cons; by left | apply elem_of_cons; by right
                      | done | done].
Qed.

Lemma NoDup_keys_with_prefix s Bucket Prefix : NoDup (keys_with_prefix s Bucket Prefix).
Proof.
  unfold keys_with_prefix. apply NoDup_omap_inj; [apply NoDup_map_to_list|].
  intros [[b1 k1] v1] [[b2 k2] v2] z H1 H2 Hf1 Hf2.
  apply elem_of_map_to_list in H1, H2.
  destruct (bool_decide (b1 = Bucket)) eqn:Hb1; simpl in Hf1; [|discriminate].
  destruct (bool_decide (b2 = Bucket)) eqn:Hb2; simpl in Hf2; [|discriminate].
  destruct (String.prefix Prefix k1); [|discriminate].
  destruct (String.prefix Prefix k2); [|discriminate].
  apply bool_decide_eq_true in Hb1, Hb2. simplify_eq. reflexivity.
Qed.

(** X15. [delete_all_files] reads one page of the listing and never asks for
    the next: when more keys match than the page holds, the call still
    returns without error, sends one deletion per listed key, and an object
    of the configured bucket under the configured prefix is left in the
    store. *)
Theorem delete_all_files_stops_after_one_page self be MaxKeys s :
  be (ListObjectsV2 (bucket_name self) (bucket_prefix self)) = None ->
  (forall k, be (DeleteObject (bucket_name self) k) = None) ->
  (MaxKeys < length (keys_with_prefix s (bucket_name self) (bucket_prefix self)))%nat ->
  let run := delete_all_files self be MaxKeys s in
  fst run = Return tt /\
  length (requests (snd run)) = (length (requests s) + 1 + MaxKeys)%nat /\
  exists k body,
    String.prefix (bucket_prefix self) k = true /\
    objects s !! (bucket_name self, k) = Some body /\
    objects (snd run) !! (bucket_name self, k) = Some body.
Proof.
  intros Hlist Hdel Hmore. cbv zeta.
  rewrite (delete_all_files_run self be MaxKeys s Hlist Hdel). simpl.
  set (keys := keys_with_prefix s (bucket_name self) (bucket_prefix self)) in *.
  split; [reflexivity|]. split.
  - rewrite !length_app, length_fmap, length_take. simpl. lia.
  - destruct (lookup_lt_is_Some_2 keys MaxKeys Hmore) as [k Hk].
    assert (Hin : k ∈ keys) by (apply list_elem_of_lookup; eauto).
    apply elem_of_keys_with_prefix in Hin as [[body Hbody] Hp].
    exists k, body. split; [exact Hp|]. split; [exact Hbody|].
    rewrite lookup_foldl_delete_other; [exact Hbody|].
    intros [_ Htake]. apply elem_of_take in Htake as (i & Hi & Hlt).
    pose proof (NoDup_lookup keys i MaxKeys k
                  (NoDup_keys_with_prefix s _ _) Hi Hk). lia.
Qed.

(** Three uploads and a backend that lists two keys a page. *)
Lemma delete_all_files_stops_after_one_page_witness :
  let s := mkStore {[ ("bkt", "uploads/a.txt") := hello;
                      ("bkt", "uploads/b.txt") := hello;
                      ("bkt", "uploads/c.txt") := hello ]} ∅ [] in
  let run := delete_all_files provider no_fault 2 s in
  fst run = Return tt /\
  exists k body, objects (snd run) !! ("bkt", k) = Some body.
Proof.
  cbv zeta.
  destruct (delete_all_files_stops_after_one_page provider no_fault 2
              (mkStore {[ ("bkt", "uploads/a.txt") := hello;
                          ("bkt", "uploads/b.txt") := hello;
                          ("bkt", "uploads/c.txt") := hello ]} ∅ []))
    as (Hr & _ & k & body & _ & _ & Hleft).
  - reflexivity.
  - reflexivity.
  - vm_compute. lia.
  - split; [exact Hr|]. exists k, body. exact Hleft.
Defined.

Lemma delete_object_run be Bucket Key s :
  delete_object be Bucket Key s
  = match be (DeleteObject Bucket Key) with
    | Some e =>
        (Raise e, {| objects := objects s; local_files := local_files s;
                     requests := requests s ++ [DeleteObject Bucket Key] |})
    | None =>
        (Return tt, {| objects := delete (Bucket, Key) (objects s);
                       local_files := local_files s;
                       requests := requests s ++ [DeleteObject Bucket Key] |})
    end.
Proof.
  unfold delete_object, send, bind, get, put, ret.
  destruct (be (DeleteObject Bucket Key)); reflexivity.
Qed.

(** The loop of [delete_all_files] when the deletion of [k] is the first
    that raises: the keys before it are deleted, nothing after it is asked. *)
Lemma for_each_delete_object_raises be (Bucket : string) (before : list string)
    k (after : list string) e s :
  (forall k', k' ∈ before -> be (DeleteObject Bucket k') = None) ->
  be (DeleteObject Bucket k) = Some e ->
  for_each (fun key => delete_object be Bucket key) (before ++ k :: after) s
  = (Raise e,
     {| objects := foldl (fun m k => delete (Bucket, k) m) (objects s) before;
        local_files := local_files s;
        requests := requests s ++ (DeleteObject Bucket <$> before)
                    ++ [DeleteObject Bucket k] |}).
Proof.
  intros Hok Hk. revert s. induction before as [|k0 before IH]; intros s.
  - cbn [app for_each]. unfold bind. rewrite delete_object_run, Hk. reflexivity.
  - cbn [app for_each]. unfold bind. rewrite delete_object_run.
    rewrite Hok by (apply elem_of_cons; by left). cbn iota beta.
    rewrite IH by (intros k' Hk'; apply Hok, elem_of_cons; by right).
    simpl. by rewrite <- app_assoc.
Qed.

Lemma list_objects_v2_run be MaxKeys Bucket Prefix s :
  list_objects_v2 be MaxKeys Bucket Prefix s
  = let s' := {| objects := objects s; local_files := local_files s;
                 requests := requests s ++ [ListObjectsV2 Bucket Prefix] |} in
    match be (ListObjectsV2 Bucket Prefix) with
    | Some e => (Raise e, s')
    | None =>
        (Return match take MaxKeys (keys_with_prefix s Bucket Prefix) with
                | [] => None
                | keys => Some keys
                end, s')
    end.
Proof.
  unfold list_objects_v2, send, bind, get, ret.
  destruct (be (ListObjectsV2 Bucket Prefix)); [reflexivity|].
  cbn [objects local_files requests].
  change (keys_with_prefix _ Bucket Prefix) with (keys_with_prefix s Bucket Prefix).
  by destruct (take MaxKeys (keys_with_prefix s Bucket Prefix)).
Qed.

(** X16. [delete_all_files] rolls nothing back. When the listing raises, it
    fails with [RuntimeError] carrying that exception and no object is
    touched. When the listing answers and the deletion of one listed key is
    the first request to raise, it fails with [RuntimeError] carrying that
    exception; the objects of the keys listed before that key are deleted
    and stay deleted, that key's object and every other object are as
    before, and no request is sent after the one that raised. *)
Theorem delete_all_files_failure_keeps_deletions self be MaxKeys s :
  let run := delete_all_files self be MaxKeys s in
  let Bucket := bucket_name self in
  let listing := ListObjectsV2 Bucket (bucket_prefix self) in
  let failure e := RuntimeError ("Error deleting all files from S3: " +:+ str e) in
  (forall e, be listing = Some e ->
     fst run = Raise (failure e) /\
     objects (snd run) = objects s /\
     requests (snd run) = requests s ++ [listing]) /\
  (forall before k after e,
     be listing = None ->
     take MaxKeys (keys_with_prefix s Bucket (bucket_prefix self))
     = before ++ k :: after ->
     (forall k', k' ∈ before -> be (DeleteObject Bucket k') = None) ->
     be (DeleteObject Bucket k) = Some e ->
     fst run = Raise (failure e) /\
     (forall k', k' ∈ before ->
        is_Some (objects s !! (Bucket, k')) /\ objects (snd run) !! (Bucket, k') = None) /\
     (is_Some (objects s !! (Bucket, k)) /\
      objects (snd run) !! (Bucket, k) = objects s !! (Bucket, k)) /\
     (forall b k', ~ (b = Bucket /\ k' ∈ before) ->
        objects (snd run) !! (b, k') = objects s !! (b, k')) /\
     local_files (snd run) = local_files s /\
     requests (snd run)
     = requests s ++ [listing] ++ (DeleteObject Bucket <$> before)
       ++ [DeleteObject Bucket k]).
Proof.
  cbv zeta. split.
  - intros e He. unfold delete_all_files, try_except, bind.
    rewrite list_objects_v2_run, He. cbv zeta. simpl. done.
  - intros before k after e Hlist Htake Hok Hk.
    assert (Hlisted : forall k', k' ∈ before ++ k :: after ->
              is_Some (objects s !! (bucket_name self, k'))).
    { intros k' Hin. rewrite <- Htake in Hin. apply subseteq_take in Hin.
      by apply elem_of_keys_with_prefix in Hin as [? _]. }
    assert (Hfresh : k ∉ before).
    { assert (Hnd : NoDup (before ++ k :: after)).
      { rewrite <- Htake.
        exact (sublist_NoDup _ _ (NoDup_keys_with_prefix s _ _) (sublist_take _ _)). }
      apply NoDup_app in Hnd as (_ & Hdisj & _). intros Hin.
      apply (Hdisj k Hin). apply elem_of_cons. by left. }
    unfold delete_all_files, try_except, bind.
    rewrite list_objects_v2_run, Hlist. cbv zeta. rewrite Htake.
    destruct (before ++ k :: after) as [|k0 listed] eqn:Hl;
      [by destruct before|].
    rewrite <- Hl in *. cbn iota beta.
    rewrite (for_each_delete_object_raises be (bucket_name self) before k after e _ Hok Hk).
    simpl. split; [reflexivity|]. split; [|split; [|split; [|split]]].
    + intros k' Hin. split.
      * apply Hlisted, elem_of_app. by left.
      * by apply lookup_foldl_delete_elem.
    + split; [apply Hlisted, elem_of_app; right; apply elem_of_cons; by left|].
      apply lookup_foldl_delete_other. intros [_ Hin]. by apply Hfresh.
    + intros b k' Hout. by apply lookup_foldl_delete_other.
    + reflexivity.
    + by rewrite <- !app_assoc.
Qed.

(** Three objects under the prefix and a backend that raises for the
    deletion of one of them and for nothing else: the objects listed before
    it are gone, the others are there. *)
Lemma delete_all_files_failure_keeps_deletions_witness :
  let s := mkStore {[ ("bkt", "uploads/a.txt") := hello;
                      ("bkt", "uploads/b.txt") := hello;
                      ("bkt", "uploads/c.txt") := hello ]} ∅ [] in
  let be := fun r => match r with
                     | DeleteObject _ "uploads/b.txt" => Some denied
                     | _ => None
                     end in
  let run := delete_all_files provider be 1000 s in
  keys_with_prefix s "bkt" "uploads"
  = ["uploads/c.txt"; "uploads/a.txt"; "uploads/b.txt"] /\
  fst run = Raise (RuntimeError ("Error deleting all files from S3: " +:+ str denied)) /\
  objects (snd run) !! ("bkt", "uploads/c.txt") = None /\
  objects (snd run) !! ("bkt", "uploads/a.txt") = None /\
  objects (snd run) !! ("bkt", "uploads/b.txt") = Some hello.
Proof.
  cbv zeta.
  set (s := mkStore {[ ("bkt", "uploads/a.txt") := hello;
                       ("bkt", "uploads/b.txt") := hello;
                       ("bkt", "uploads/c.txt") := hello ]} ∅ []).
  set (be := fun r => match r with
                      | DeleteObject _ "uploads/b.txt" => Some denied
                      | _ => None
                      end).
  assert (Hkeys : keys_with_prefix s "bkt" "uploads"
                  = ["uploads/c.txt"; "uploads/a.txt"; "uploads/b.txt"])
    by (vm_compute; reflexivity).
  destruct (delete_all_files_failure_keeps_deletions provider be 1000 s) as [_ Hpart].
  destruct (Hpart ["uploads/c.txt"; "uploads/a.txt"] "uploads/b.txt" [] denied)
    as (Hr & Hgone & [_ Hkept] & _).
  - reflexivity.
  - change (bucket_name provider) with "bkt". change (bucket_prefix provider) with "uploads".
    rewrite Hkeys. reflexivity.
  - intros k' Hin. apply elem_of_cons in Hin as [->|Hin]; [reflexivity|].
    apply list_elem_of_singleton in Hin as ->. reflexivity.
  - reflexivity.
  - split; [exact Hkeys|]. split; [exact Hr|].
    split; [apply Hgone, elem_of_cons; by left|].
    split; [apply Hgone, elem_of_cons; right; apply elem_of_cons; by left|].
    etransitivity; [exact Hkept|]. vm_compute. reflexivity.
Defined.

(** ** What a parsed locator looks like *)

Lemma partition_sound sep s a b :
  partition sep s = Some (a, b) -> s = a +:+ sep +:+ b.
Proof.
  revert a. induction s as [|c s IH]; intros a; cbn [partition].
  - destruct sep as [|y sep]; [by intros [= <- <-]|].
    rewrite prefix_cons'. discriminate.
  - destruct (String.prefix sep (String c s)) eqn:Hp.
    + intros [= <- <-]. apply prefix_app in Hp as [t Ht].
      rewrite Ht, string_drop_app. reflexivity.
    + destruct (partition sep s) as [[a' b']|] eqn:Hs; [|discriminate].
      intros [= <- <-]. by rewrite (IH a' eq_refl) at 1.
Qed.

Lemma partition_None_occurs sep s : partition sep s = None -> occurs sep s = false.
Proof.
  induction s as [|c s IH]; cbn [partition occurs].
  - destruct (String.prefix sep EmptyString); [discriminate | done].
  - destruct (String.prefix sep (String c s)); [discriminate|].
    destruct (partition sep s) as [[a b]|]; [discriminate|]. intros _. by apply IH.
Qed.

Lemma prefix_app_l sep a x :
  String.prefix sep a = true -> String.prefix sep (a +:+ x) = true.
Proof.
  rewrite !prefix_app. intros [t ->]. exists (t +:+ x). apply string_app_assoc.
Qed.

(** The text before the first occurrence has no occurrence. *)
Lemma partition_before c sep s a b :
  partition (String c sep) s = Some (a, b) -> occurs (String c sep) a = false.
Proof.
  revert a. induction s as [|x s IH]; intros a Hpart.
  - cbn [partition] in Hpart. rewrite prefix_cons' in Hpart. discriminate.
  - pose proof (partition_sound _ _ _ _ Hpart) as Hs.
    cbn [partition] in Hpart.
    destruct (String.prefix (String c sep) (String x s)) eqn:Hp.
    + injection Hpart as <- <-. reflexivity.
    + destruct (partition (String c sep) s) as [[a' b']|] eqn:Hs'; [|discriminate].
      injection Hpart as <- <-. cbn [occurs]. rewrite (IH a' eq_refl), orb_false_r.
      destruct (String.prefix (String c sep) (String x a')) eqn:Hpa; [|reflexivity].
      apply (prefix_app_l _ _ (String c sep +:+ b')) in Hpa. congruence.
Qed.

(** The second piece of a split on ["//"]: it has no ["//"], it follows the
    first ["//"], and what follows it is nothing or starts with ["//"]. *)
Lemma split_second p rest :
  split "//" p !! 1%nat = Some rest ->
  occurs "//" rest = false /\
  exists scheme tail,
    occurs "//" scheme = false /\
    p = scheme +:+ "//" +:+ rest +:+ tail /\
    (tail = EmptyString \/ exists t, tail = "//" +:+ t).
Proof.
  unfold split. destruct (String.length p) as [|n] eqn:Hlen; [discriminate|].
  cbn [splitn]. destruct (partition "//" p) as [[scheme after]|] eqn:Hp; [|discriminate].
  pose proof (partition_sound _ _ _ _ Hp) as Hsound.
  pose proof (partition_before _ _ _ _ _ Hp) as Hscheme.
  destruct n as [|m].
  { rewrite Hsound, string_length_app in Hlen. simpl in Hlen. lia. }
  cbn [splitn lookup list_lookup].
  destruct (partition "//" after) as [[r t]|] eqn:Ha; cbn [lookup list_lookup].
  - intros [= <-]. split; [exact (partition_before _ _ _ _ _ Ha)|].
    exists scheme, ("//" +:+ t). split; [exact Hscheme|]. split; [|eauto].
    rewrite Hsound. by rewrite (partition_sound _ _ _ _ Ha) at 1.
  - intros [= <-]. split; [exact (partition_None_occurs _ _ Ha)|].
    exists scheme, EmptyString. split; [exact Hscheme|]. split; [|by left].
    rewrite Hsound. f_equal. f_equal. clear. induction after as [|c a IH]; [done|].
    change (String c a = String c (a +:+ EmptyString)). by f_equal.
Qed.

(** X17. Whenever the parse [get_file] and [as_local_file] make of a locator
    succeeds, the locator reads [scheme//bucket/key] followed by nothing or
    by ["//"] and more text, which is dropped: the bucket parsed has no
    slash, the scheme and the key parsed have no double slash, and the
    scheme is not looked at. The parse changes no state. *)
Theorem parse_locator_sound {S} file_path (s s' : S) bucket key :
  parse_locator file_path s = (Return (bucket, key), s') ->
  s' = s /\
  occurs "/" bucket = false /\
  occurs "//" (bucket +:+ "/" +:+ key) = false /\
  exists scheme tail,
    occurs "//" scheme = false /\
    file_path = scheme +:+ "//" +:+ bucket +:+ "/" +:+ key +:+ tail /\
    (tail = EmptyString \/ exists t, tail = "//" +:+ t).
Proof.
  unfold parse_locator.
  destruct (split "//" file_path !! 1%nat) as [rest|] eqn:Hsplit; [|discriminate].
  apply split_second in Hsplit as (Hrest & scheme & tail & Hscheme & Hpath & Htail).
  cbn [splitn].
  destruct (partition "/" rest) as [[b k]|] eqn:Hp; [|discriminate].
  unfold ret. intros [= <- <- <-].
  pose proof (partition_sound _ _ _ _ Hp) as Hsound.
  split; [reflexivity|]. split; [exact (partition_before _ _ _ _ _ Hp)|].
  split; [by rewrite <- Hsound|].
  exists scheme, tail. split; [exact Hscheme|]. split; [|exact Htail].
  rewrite Hpath, Hsound. by rewrite !string_app_assoc.
Qed.

Lemma parse_locator_sound_witness :
  exists scheme tail,
    "s3://bkt/uploads/a//b" = scheme +:+ "//" +:+ "bkt" +:+ "/" +:+ "uploads/a" +:+ tail /\
    (tail = EmptyString \/ exists t, tail = "//" +:+ t).
Proof.
  destruct (parse_locator_sound "s3://bkt/uploads/a//b" tt tt "bkt" "uploads/a")
    as (_ & _ & _ & scheme & tail & _ & Hpath & Htail).
  - vm_compute. reflexivity.
  - exists scheme, tail. split; [exact Hpath | exact Htail].
Defined.

(** [as_local_file] on a locator [scheme//bucket/key] that parses, when the
    directory of the local copy can be made. *)
Lemma as_local_file_run self be os scheme Bucket Key s :
  occurs "//" (scheme +:+ "/") = false ->
  occurs "/" Bucket = false ->
  occurs "//" (Bucket +:+ "/" +:+ Key) = false ->
  let file_path := scheme +:+ "//" +:+ Bucket +:+ "/" +:+ Key in
  let cached := S3_LOCAL_CACHE_DIR self +:+ "/" +:+ Key in
  makedirs_blocked s (dirname cached) = false ->
  refuses os (dirname cached) = None ->
  be (DownloadFile Bucket Key cached) = None ->
  as_local_file self be os file_path s
  = match objects s !! (Bucket, Key) with
    | Some body =>
        (Return cached,
         {| objects := objects s;
            local_files := <[cached := body]> (local_files s);
            requests := requests s ++ [DownloadFile Bucket Key cached] |})
    | None =>
        (Raise (RuntimeError ("Error downloading file " +:+ file_path +:+
                              " from S3: " +:+ str NoSuchKey)),
         {| objects := objects s; local_files := local_files s;
            requests := requests s ++ [DownloadFile Bucket Key cached] |})
    end.
Proof.
  intros Hs Hb Hk. cbv zeta. intros Hfree Hos Hdl.
  unfold as_local_file, try_except, bind, parse_locator.
  rewrite (split_double_slash _ _ Hs Hk). cbn [lookup list_lookup].
  change (Bucket +:+ "/" +:+ Key) with (Bucket +:+ String "/" Key).
  cbn [splitn]. rewrite (partition_char _ _ _ Hb).
  unfold ret at 1. cbn iota beta. unfold makedirs. rewrite Hfree, Hos.
  unfold ret, download_file, send, bind, get, put, raise. rewrite Hdl. simpl.
  destruct (objects s !! (Bucket, Key)); reflexivity.
Qed.

(** A file written beside the components of a directory does not block the
    making of that directory. *)
Lemma makedirs_blocked_insert s name path body requests' :
  path ∉ path_components name ->
  makedirs_blocked {| objects := objects s;
                      local_files := <[path := body]> (local_files s);
                      requests := requests' |} name
  = makedirs_blocked s name.
Proof.
  intros Hout. unfold makedirs_blocked. cbn [local_files].
  induction (path_components name) as [|q qs IH]; [reflexivity|].
  apply not_elem_of_cons in Hout as [Hne Hout].
  cbn [existsb]. rewrite IH by exact Hout.
  by rewrite lookup_insert_ne.
Qed.

(** X18. The local copy [as_local_file] makes is named by the cache
    directory and the key alone: the bucket is not part of the path. When
    the directory of that path can be made (no component of it is a regular
    file, the copy's own path is none of its components, and the system does
    not refuse) and the client raises for neither download, two objects with
    the same key in two buckets are given the same local path, and the
    second download replaces the content of the first. *)
Theorem as_local_file_path_ignores_the_bucket self be os scheme Bucket1 Bucket2 Key
    body1 body2 s :
  let cached := S3_LOCAL_CACHE_DIR self +:+ "/" +:+ Key in
  occurs "//" (scheme +:+ "/") = false ->
  occurs "/" Bucket1 = false -> occurs "/" Bucket2 = false ->
  occurs "//" (Bucket1 +:+ "/" +:+ Key) = false ->
  occurs "//" (Bucket2 +:+ "/" +:+ Key) = false ->
  makedirs_blocked s (dirname cached) = false ->
  cached ∉ path_components (dirname cached) ->
  refuses os (dirname cached) = None ->
  (forall Bucket, be (DownloadFile Bucket Key cached) = None) ->
  objects s !! (Bucket1, Key) = Some body1 ->
  objects s !! (Bucket2, Key) = Some body2 ->
  let first :=
    as_local_file self be os (scheme +:+ "//" +:+ Bucket1 +:+ "/" +:+ Key) s in
  let second :=
    as_local_file self be os (scheme +:+ "//" +:+ Bucket2 +:+ "/" +:+ Key) (snd first) in
  fst first = Return cached /\
  local_files (snd first) !! cached = Some body1 /\
  fst second = Return cached /\
  local_files (snd second) !! cached = Some body2.
Proof.
  cbv zeta. intros Hs Hb1 Hb2 Hk1 Hk2 Hfree Hself Hos Hdl H1 H2.
  rewrite (as_local_file_run self be os scheme Bucket1 Key s Hs Hb1 Hk1 Hfree Hos (Hdl _)).
  rewrite H1. cbn [fst snd].
  rewrite (as_local_file_run self be os scheme Bucket2 Key _ Hs Hb2 Hk2); cycle 1.
  - rewrite makedirs_blocked_insert by exact Hself. exact Hfree.
  - exact Hos.
  - apply Hdl.
  - cbn [objects]. rewrite H2. cbn [fst snd local_files].
    split; [reflexivity|]. split; [apply lookup_insert_eq|].
    split; [reflexivity | apply lookup_insert_eq].
Qed.

(** The same key in the buckets ["bkt"] and ["other"]; and the first call
    again on a disk where ["/tmp/cache/uploads"] is a regular file, which
    raises. *)
Lemma as_local_file_path_ignores_the_bucket_witness :
  let s := mkStore {[ ("bkt", "uploads/a.txt") := hello;
                      ("other", "uploads/a.txt") := [Byte.x21] ]} ∅ [] in
  let first := as_local_file provider no_fault os_ok "s3://bkt/uploads/a.txt" s in
  let second :=
    as_local_file provider no_fault os_ok "s3://other/uploads/a.txt" (snd first) in
  let taken := mkStore (objects s) {[ "/tmp/cache/uploads" := hello ]} [] in
  fst first = fst second /\
  local_files (snd second) !! "/tmp/cache/uploads/a.txt" = Some [Byte.x21] /\
  fst (as_local_file provider no_fault os_ok "s3://bkt/uploads/a.txt" taken)
  = Raise (RuntimeError ("Error downloading file s3://bkt/uploads/a.txt from S3: "
                         +:+ str os_error)).
Proof.
  cbv zeta.
  destruct (as_local_file_path_ignores_the_bucket provider no_fault os_ok "s3:"
              "bkt" "other" "uploads/a.txt" hello [Byte.x21]
              (mkStore {[ ("bkt", "uploads/a.txt") := hello;
                          ("other", "uploads/a.txt") := [Byte.x21] ]} ∅ []))
    as (H1 & _ & H2 & Hc).
  1-6: vm_compute; reflexivity.
  - by_compute.
  - reflexivity.
  - intros; reflexivity.
  - vm_compute. reflexivity.
  - vm_compute. reflexivity.
  - split; [etransitivity; [exact H1 | symmetry; exact H2]|].
    split; [exact Hc|]. vm_compute. reflexivity.
Defined.
